(** * A verified model of the calculator in [script.js]

    The calculator is a single JavaScript class whose handlers mutate a
    handful of fields and two DOM text nodes.  The development below
    embeds

    - JavaScript Numbers as IEEE-754 binary64 values ([spec_float] with
      [prec = 53] and [emax = 1024], rounding to nearest, ties to even),
      with the Number-to-String conversions [toString], [toFixed] and
      [toExponential] and the String-to-Number conversion [parseFloat]
      as ECMA-262 defines them;
    - the calculator object as a record, one field per mutable slot, and
      every method as a state transformer;
    - the timers created by [setTimeout] as a queue of pending callbacks,
      any of which may fire between two events.

    Strings are sequences of code units, one [ascii] each: the entry is
    made of digits, a decimal point and what [formatResult] prints, so
    [String.length] is the [length] of the JavaScript string.  The
    operator symbols of the trace are kept as the bytes of the source
    file; they are concatenated and displayed, never measured. *)

From Stdlib Require Import ZArith List String Ascii Bool Lia.
From Stdlib Require Import SpecFloat DecimalString.
Import ListNotations.

Local Open Scope string_scope.
Local Open Scope Z_scope.

(* ================================================================= *)
(** ** Strings as JavaScript uses them *)

Module JSString.

(** [s.includes(c)] for a single character [c]. *)
Fixpoint includes (c : ascii) (s : string) : bool :=
  match s with
  | EmptyString => false
  | String a r => Ascii.eqb a c || includes c r
  end.

(** Number of occurrences of a character. *)
Fixpoint count (c : ascii) (s : string) : nat :=
  match s with
  | EmptyString => O
  | String a r => ((if Ascii.eqb a c then 1 else 0) + count c r)%nat
  end.

(** [s.split(c)]: the segments between the occurrences of [c]. *)
Fixpoint split (c : ascii) (s : string) : list string :=
  match s with
  | EmptyString => [EmptyString]
  | String a r =>
      if Ascii.eqb a c then EmptyString :: split c r
      else match split c r with
           | [] => [String a EmptyString]
           | seg :: segs => String a seg :: segs
           end
  end.

(** [s.length] as an integer (all strings here are ASCII). *)
Definition len (s : string) : Z := Z.of_nat (String.length s).

Fixpoint all_zeros (s : string) : bool :=
  match s with
  | EmptyString => true
  | String a r => Ascii.eqb a "0" && all_zeros r
  end.

(** Does [s] consist of zeros only, at least one?  This is [0+$]
    matched at the start of [s]. *)
Definition zeros_to_end (s : string) : bool :=
  match s with
  | EmptyString => false
  | String _ _ => all_zeros s
  end.

(** Does the regular expression [\.?0+$] match [s] from its first
    character on? *)
Definition tail_matches (s : string) : bool :=
  match s with
  | EmptyString => false
  | String a r => if Ascii.eqb a "." then zeros_to_end r else zeros_to_end s
  end.

(** [s.replace(/\.?0+$/, '')]: the leftmost position where the pattern
    matches is found and what it matched (everything up to the end) is
    dropped.  Without a match the string is returned as it is. *)
Fixpoint strip_zeros_regex (s : string) : string :=
  if tail_matches s then EmptyString
  else match s with
       | EmptyString => EmptyString
       | String a r => String a (strip_zeros_regex r)
       end.

Definition repeat0 (n : nat) : string :=
  string_of_list_ascii (List.repeat "0"%char n).

(** [substring] helpers in the style of [s.slice]. *)
Definition take (n : nat) (s : string) : string := substring 0 n s.
Definition drop (n : nat) (s : string) : string :=
  substring n (String.length s - n) s.

End JSString.

(* ================================================================= *)
(** ** JavaScript Numbers *)

Module JSNumber.

Definition prec : Z := 53.
Definition emax : Z := 1024.

(** A Number is a binary64 value; there is one NaN. *)
Definition number : Type := spec_float.

Definition zero : number := S754_zero false.
Definition NaN : number := S754_nan.
Definition Infinity : number := S754_infinity false.

Definition add : number -> number -> number := SFadd prec emax.
Definition sub : number -> number -> number := SFsub prec emax.
Definition mul : number -> number -> number := SFmul prec emax.
Definition div : number -> number -> number := SFdiv prec emax.
Definition sqrt : number -> number := SFsqrt prec emax.
Definition abs : number -> number := SFabs.

(** [x === y], [x < y], [x <= y] and [x >= y] on Numbers. *)
Definition strict_eq (x y : number) : bool := SFeqb x y.
Definition lt (x y : number) : bool := SFltb x y.
Definition le (x y : number) : bool := SFleb x y.
Definition ge (x y : number) : bool := SFleb y x.

Definition isFinite (x : number) : bool :=
  match x with
  | S754_zero _ | S754_finite _ _ _ => true
  | S754_infinity _ | S754_nan => false
  end.

(** *** Decimal to binary

    [of_decimal neg m e] is the Number nearest to [m * 10^e] (ties to
    even), negated when [neg]: the rounding that a numeric literal and
    [parseFloat] apply to the decimal they read. *)
Definition of_decimal (neg : bool) (m : N) (e : Z) : number :=
  match m with
  | N0 => S754_zero neg
  | Npos p =>
      match e with
      | Zneg k =>
          let '(q, e', l) :=
            SFdiv_core_binary prec emax (Zpos p) 0 (Zpos (Pos.pow 10 k)) 0 in
          binary_round_aux prec emax neg q e' l
      | _ => binary_round prec emax neg (p * Z.to_pos (10 ^ e))%positive 0
      end
  end.

(** The literals of [formatResult]. *)
Definition lit_1e12 : number := of_decimal false 1 12.
Definition lit_1em6 : number := of_decimal false 1 (-6).
Definition lit_100 : number := of_decimal false 100 0.

(** *** Binary to decimal

    The exact value of a positive finite Number as a fraction. *)
Definition fraction_of (m : positive) (e : Z) : Z * Z :=
  match e with
  | Zneg k => (Zpos m, Zpos (Pos.pow 2 k))
  | _ => (Zpos m * 2 ^ e, 1)
  end.

Definition digits_of (n : Z) : string :=
  NilZero.string_of_uint (N.to_uint (Z.to_N n)).

Definition ndigits (n : Z) : Z := JSString.len (digits_of n).

(** [floor_log10 (p, q)] is the integer [e] with
    [10^e <= p/q < 10^(e+1)], for positive [p] and [q]. *)
Definition floor_log10 (x : Z * Z) : Z :=
  let '(p, q) := x in
  if q <=? p then ndigits (p / q) - 1
  else
    let k := ndigits (q / p) in
    if p * 10 ^ (k - 1) =? q then - (k - 1) else - k.

(** [scale (p, q) d] is the fraction [p/q * 10^d]. *)
Definition scale (x : Z * Z) (d : Z) : Z * Z :=
  let '(p, q) := x in
  match d with
  | Zneg k => (p, q * Zpos (Pos.pow 10 k))
  | _ => (p * 10 ^ d, q)
  end.

(** Round a non-negative fraction to the nearest integer, the larger
    one when two are equally near. *)
Definition round_half_up (x : Z * Z) : Z :=
  let '(p, q) := x in (2 * p + q) / (2 * q).

Definition sign_string (neg : bool) : string := if neg then "-" else "".

(** *** [Number.prototype.toFixed] *)

Definition fixed_digits (fd : nat) (n : Z) : string :=
  let ds := digits_of n in
  let padded := JSString.repeat0 (S fd - String.length ds) ++ ds in
  let k := (String.length padded - fd)%nat in
  if Nat.eqb fd 0 then padded
  else JSString.take k padded ++ "." ++ JSString.drop k padded.

(** *** [Number.prototype.toExponential] *)

Definition exponent_string (e : Z) : string :=
  (if e <? 0 then "-" else "+") ++ digits_of (Z.abs e).

Definition exp_digits (fd : nat) (ds : string) (e : Z) : string :=
  (if Nat.eqb fd 0 then ds
   else JSString.take 1 ds ++ "." ++ JSString.drop 1 ds)
  ++ "e" ++ exponent_string e.

(** The pair [(n, e)] with [10^fd <= n < 10^(fd+1)] for which
    [n * 10^(e - fd)] is nearest to the fraction [x]; of two equally
    near ones the larger. *)
Definition exp_round (fd : nat) (x : Z * Z) : Z * Z :=
  let e := floor_log10 x in
  let n := round_half_up (scale x (Z.of_nat fd - e)) in
  if 10 ^ (Z.of_nat fd + 1) <=? n then (n / 10, e + 1) else (n, e).

Definition toExponential (fd : nat) (x : number) : string :=
  match x with
  | S754_nan => "NaN"
  | S754_infinity s => sign_string s ++ "Infinity"
  | S754_zero _ => exp_digits fd (JSString.repeat0 (S fd)) 0
  | S754_finite s m e =>
      let '(n, e10) := exp_round fd (fraction_of m e) in
      sign_string s ++ exp_digits fd (digits_of n) e10
  end.

(** *** [Number.prototype.toString]

    The shortest decimal that reads back as the same Number.  For a
    digit count [k], the two [k]-digit decimals around the fraction
    [x] are tried; [n] is the position of the decimal point, so that
    the value is [s * 10^(n - k)]. *)
Definition reads_back (x : number) (s n k : Z) : bool :=
  match SFcompare (of_decimal false (Z.to_N s) (n - k)) x with
  | Some Eq => true
  | _ => false
  end.

Definition candidate (x : number) (fr : Z * Z) (n0 k : Z)
  : option (Z * Z) :=
  let '(p, q) := scale fr (k - n0) in
  let lo := p / q in
  let hi := lo + 1 in
  let r := p mod q in
  let ok_lo := reads_back x lo n0 k in
  let ok_hi := reads_back x hi n0 k in
  let pick_hi :=
    if ok_lo && ok_hi then
      match 2 * r ?= q with
      | Lt => false
      | Gt => true
      | Eq => Z.odd lo
      end
    else ok_hi in
  if negb (ok_lo || ok_hi) then None
  else if pick_hi then
    Some (if hi =? 10 ^ k then (10 ^ (k - 1), n0 + 1) else (hi, n0))
  else Some (lo, n0).

(** Try [k], [k+1], ... for [fuel] steps. *)
Fixpoint shortest (fuel : nat) (x : number) (fr : Z * Z) (n0 k : Z)
  : Z * Z * Z :=
  match fuel with
  | O => (fst (scale fr (k - n0)) / snd (scale fr (k - n0)), n0, k)
  | S fuel' =>
      match candidate x fr n0 k with
      | Some (s, n) => (s, n, k)
      | None => shortest fuel' x fr n0 (k + 1)
      end
  end.

(** The layout of the digits [ds] (there are [k] of them) with the
    decimal point at [n]. *)
Definition layout (ds : string) (n k : Z) : string :=
  if (k <=? n) && (n <=? 21) then
    ds ++ JSString.repeat0 (Z.to_nat (n - k))
  else if (0 <? n) && (n <=? 21) then
    JSString.take (Z.to_nat n) ds ++ "." ++ JSString.drop (Z.to_nat n) ds
  else if (-6 <? n) && (n <=? 0) then
    "0." ++ JSString.repeat0 (Z.to_nat (- n)) ++ ds
  else if k =? 1 then ds ++ "e" ++ exponent_string (n - 1)
  else JSString.take 1 ds ++ "." ++ JSString.drop 1 ds
       ++ "e" ++ exponent_string (n - 1).

Definition toString (x : number) : string :=
  match x with
  | S754_nan => "NaN"
  | S754_zero _ => "0"
  | S754_infinity s => sign_string s ++ "Infinity"
  | S754_finite sg m e =>
      let fr := fraction_of m e in
      let '(s, n, k) :=
        shortest 17 (S754_finite false m e) fr (floor_log10 fr + 1) 1 in
      sign_string sg ++ layout (digits_of s) n k
  end.

(** [x.toFixed(fd)]; a Number of magnitude [1e21] or more is printed
    by [toString]. *)
Definition lit_1e21 : number := of_decimal false 1 21.

Definition toFixed (fd : nat) (x : number) : string :=
  match x with
  | S754_nan => "NaN"
  | S754_zero _ => fixed_digits fd 0
  | S754_infinity _ => toString x
  | S754_finite s m e =>
      if le lit_1e21 (abs x) then toString x
      else
        sign_string s
        ++ fixed_digits fd
             (round_half_up (scale (fraction_of m e) (Z.of_nat fd)))
  end.

(** *** [parseFloat]

    The longest prefix of the trimmed string that is a decimal literal
    is read; without one the result is NaN. *)
Definition is_digit (c : ascii) : bool :=
  let n := nat_of_ascii c in (48 <=? n)%nat && (n <=? 57)%nat.

Definition is_space (c : ascii) : bool :=
  let n := nat_of_ascii c in
  ((9 <=? n)%nat && (n <=? 13)%nat) || (n =? 32)%nat.

Fixpoint trim_start (s : string) : string :=
  match s with
  | String c r => if is_space c then trim_start r else s
  | EmptyString => s
  end.

(** The leading digits of [s] and what follows them. *)
Fixpoint span_digits (s : string) : string * string :=
  match s with
  | String c r =>
      if is_digit c then
        let '(ds, rest) := span_digits r in (String c ds, rest)
      else (EmptyString, s)
  | EmptyString => (EmptyString, EmptyString)
  end.

Definition digit_value (c : ascii) : Z := Z.of_nat (nat_of_ascii c) - 48.

Fixpoint digits_value (acc : Z) (s : string) : Z :=
  match s with
  | String c r => digits_value (10 * acc + digit_value c) r
  | EmptyString => acc
  end.

(** An exponent part [e], [e+] or [e-] followed by digits; [0] when
    there is none. *)
Definition exponent_part (s : string) : Z :=
  match s with
  | String c r =>
      if Ascii.eqb c "e" || Ascii.eqb c "E" then
        let '(neg, r') :=
          match r with
          | String "-" r' => (true, r')
          | String "+" r' => (false, r')
          | _ => (false, r)
          end in
        let '(ds, _) := span_digits r' in
        match ds with
        | EmptyString => 0
        | _ => if neg then - digits_value 0 ds else digits_value 0 ds
        end
      else 0
  | EmptyString => 0
  end.

Fixpoint starts_with (p s : string) : bool :=
  match p, s with
  | EmptyString, _ => true
  | String a p', String b s' => Ascii.eqb a b && starts_with p' s'
  | String _ _, EmptyString => false
  end.

Definition parseFloat (input : string) : number :=
  let s := trim_start input in
  let '(neg, s1) :=
    match s with
    | String "-" r => (true, r)
    | String "+" r => (false, r)
    | _ => (false, s)
    end in
  if starts_with "Infinity" s1 then S754_infinity neg
  else
    let '(ip, s2) := span_digits s1 in
    let '(fp, s3) :=
      match s2 with
      | String "." r => span_digits r
      | _ => (EmptyString, s2)
      end in
    match ip ++ fp with
    | EmptyString => S754_nan
    | ds =>
        of_decimal neg (Z.to_N (digits_value 0 ds))
          (exponent_part s3 - JSString.len fp)
    end.

End JSNumber.

(* ================================================================= *)
(** ** The calculator object *)

Module Calculator.
Import JSString JSNumber.

(** The four operator actions ['add'], ['subtract'], ['multiply'] and
    ['divide']. *)
Inductive binop : Type := add | subtract | multiply | divide.

(** What a [setTimeout] callback of the class does when it runs. *)
Inductive callback : Type :=
| CallClear                       (* () => this.clear() *)
| RestoreText (originalText : string).
                                  (* operationDisplay.textContent = originalText *)

(** The fields of [Calculator], the two DOM nodes it writes, and the
    timers it has scheduled (delay in milliseconds, callback). *)
Record calculator : Type := mkCalculator {
  display : string;               (* display.textContent *)
  displayError : bool;            (* display.classList has 'error' *)
  operationDisplay : string;      (* operationDisplay.textContent *)
  activeButton : option binop;    (* operator button with class 'active' *)
  currentInput : string;
  previousInput : option string;
  operator : option binop;
  waitingForNewInput : bool;
  memory : number;
  timers : list (Z * callback)
}.

Definition set_display v c :=
  mkCalculator v (displayError c) (operationDisplay c) (activeButton c)
    (currentInput c) (previousInput c) (operator c)
    (waitingForNewInput c) (memory c) (timers c).
Definition set_displayError v c :=
  mkCalculator (display c) v (operationDisplay c) (activeButton c)
    (currentInput c) (previousInput c) (operator c)
    (waitingForNewInput c) (memory c) (timers c).
Definition set_operationDisplay v c :=
  mkCalculator (display c) (displayError c) v (activeButton c)
    (currentInput c) (previousInput c) (operator c)
    (waitingForNewInput c) (memory c) (timers c).
Definition set_activeButton v c :=
  mkCalculator (display c) (displayError c) (operationDisplay c) v
    (currentInput c) (previousInput c) (operator c)
    (waitingForNewInput c) (memory c) (timers c).
Definition set_currentInput v c :=
  mkCalculator (display c) (displayError c) (operationDisplay c)
    (activeButton c) v (previousInput c) (operator c)
    (waitingForNewInput c) (memory c) (timers c).
Definition set_previousInput v c :=
  mkCalculator (display c) (displayError c) (operationDisplay c)
    (activeButton c) (currentInput c) v (operator c)
    (waitingForNewInput c) (memory c) (timers c).
Definition set_operator v c :=
  mkCalculator (display c) (displayError c) (operationDisplay c)
    (activeButton c) (currentInput c) (previousInput c) v
    (waitingForNewInput c) (memory c) (timers c).
Definition set_waitingForNewInput v c :=
  mkCalculator (display c) (displayError c) (operationDisplay c)
    (activeButton c) (currentInput c) (previousInput c) (operator c)
    v (memory c) (timers c).
Definition set_memory v c :=
  mkCalculator (display c) (displayError c) (operationDisplay c)
    (activeButton c) (currentInput c) (previousInput c) (operator c)
    (waitingForNewInput c) v (timers c).
Definition setTimeout (cb : callback) (delay : Z) c :=
  mkCalculator (display c) (displayError c) (operationDisplay c)
    (activeButton c) (currentInput c) (previousInput c) (operator c)
    (waitingForNewInput c) (memory c) (timers c ++ [(delay, cb)]).

(** Statements in sequence: [c |> f |> g] runs [f], then [g]. *)
Notation "c |> f" := (f c) (at level 45, left associativity, only parsing).

(** *** [formatResult] *)
Definition formatResult (result : number) : string :=
  if negb (isFinite result) then "Error"
  else
    let formatted := toString result in
    let formatted :=
      if ge (abs result) lit_1e12
         || (le (abs result) lit_1em6 && negb (strict_eq result zero))
      then toExponential 6 result
      else
        let decimalPlaces :=
          if includes "." formatted
          then len (nth 1 (split "." formatted) "")
          else 0 in
        if decimalPlaces >? 8
        then strip_zeros_regex (toFixed 8 result)
        else formatted in
    if len formatted >? 12 then toExponential 5 result else formatted.

(** *** Display *)
Definition updateDisplay (c : calculator) : calculator :=
  c |> set_display (currentInput c) |> set_displayError false.

Definition clear (c : calculator) : calculator :=
  c |> set_currentInput "0"
    |> set_previousInput None
    |> set_operator None
    |> set_waitingForNewInput false
    |> set_operationDisplay ""
    |> set_activeButton None
    |> set_displayError false
    |> updateDisplay.

Definition showError (message : string) (c : calculator) : calculator :=
  c |> set_display message
    |> set_displayError true
    |> set_operationDisplay ""
    |> setTimeout CallClear 2000.

Definition showTemporaryMessage (message : string) (c : calculator)
  : calculator :=
  let originalText := operationDisplay c in
  c |> set_operationDisplay message
    |> setTimeout (RestoreText originalText) 1500.

(** *** Entry *)
Definition inputNumber (number : string) (c : calculator) : calculator :=
  (if waitingForNewInput c then
     c |> set_currentInput number |> set_waitingForNewInput false
   else if String.eqb (currentInput c) "0" && negb (String.eqb number "0")
   then c |> set_currentInput number
   else if negb (String.eqb (currentInput c) "0") then
     if len (currentInput c) <? 12
     then c |> set_currentInput (currentInput c ++ number)
     else c
   else c)
  |> updateDisplay.

Definition inputDecimal (c : calculator) : calculator :=
  (if waitingForNewInput c then
     c |> set_currentInput "0." |> set_waitingForNewInput false
   else if negb (includes "." (currentInput c))
   then c |> set_currentInput (currentInput c ++ ".")
   else c)
  |> updateDisplay.

(** *** Operators *)
Definition operatorSymbols (o : binop) : string :=
  match o with
  | add => "+"
  | subtract => "-"
  | multiply => "×"
  | divide => "÷"
  end.

(** The [switch] of [calculate]: the result, or the message of the
    error it shows before it returns. *)
Definition compute (o : binop) (prev current : number)
  : number + string :=
  match o with
  | add => inl (JSNumber.add prev current)
  | subtract => inl (sub prev current)
  | multiply => inl (mul prev current)
  | divide =>
      if strict_eq current zero then inr "Cannot divide by zero"
      else inl (div prev current)
  end.

Definition calculate (c : calculator) : calculator :=
  match operator c, previousInput c with
  | Some o, Some p =>
      let prev := parseFloat p in
      let current := parseFloat (currentInput c) in
      match compute o prev current with
      | inr message => showError message c
      | inl result =>
          c |> set_operationDisplay
                 (p ++ " " ++ operatorSymbols o ++ " "
                    ++ currentInput c ++ " =")
            |> set_currentInput (formatResult result)
            |> set_operator None
            |> set_previousInput None
            |> set_waitingForNewInput true
            |> set_activeButton None
            |> updateDisplay
      end
  | _, _ => c
  end.

Definition updateOperatorButtons (activeOperator : binop) (c : calculator)
  : calculator :=
  c |> set_activeButton (Some activeOperator).

Definition setOperator (newOperator : binop) (c : calculator)
  : calculator :=
  let c1 :=
    match operator c with
    | Some _ => if negb (waitingForNewInput c) then calculate c else c
    | None => c
    end in
  c1 |> set_operator (Some newOperator)
     |> set_previousInput (Some (currentInput c1))
     |> set_waitingForNewInput true
     |> set_operationDisplay
          (currentInput c1 ++ " " ++ operatorSymbols newOperator)
     |> updateOperatorButtons newOperator.

(** *** Functions *)
Definition calculatePercentage (c : calculator) : calculator :=
  let current := parseFloat (currentInput c) in
  let result := div current lit_100 in
  c |> set_operationDisplay (currentInput c ++ "% =")
    |> set_currentInput (formatResult result)
    |> set_waitingForNewInput true
    |> updateDisplay.

Definition calculateSquareRoot (c : calculator) : calculator :=
  let current := parseFloat (currentInput c) in
  if lt current zero then showError "Invalid input for square root" c
  else
    let result := sqrt current in
    c |> set_operationDisplay ("√" ++ currentInput c ++ " =")
      |> set_currentInput (formatResult result)
      |> set_waitingForNewInput true
      |> updateDisplay.

(** *** Memory *)
Definition memoryClear (c : calculator) : calculator :=
  c |> set_memory zero |> showTemporaryMessage "Memory cleared".

Definition memoryRecall (c : calculator) : calculator :=
  c |> set_currentInput (formatResult (memory c))
    |> set_waitingForNewInput true
    |> updateDisplay
    |> showTemporaryMessage "Memory recalled".

Definition memoryAdd (c : calculator) : calculator :=
  let current := parseFloat (currentInput c) in
  c |> set_memory (JSNumber.add (memory c) current)
    |> showTemporaryMessage "Added to memory".

Definition memorySubtract (c : calculator) : calculator :=
  let current := parseFloat (currentInput c) in
  c |> set_memory (sub (memory c) current)
    |> showTemporaryMessage "Subtracted from memory".

(** *** Dispatch *)
Inductive action : Type :=
| a_clear | a_decimal | a_equals | a_operator (o : binop)
| a_percentage | a_square_root
| a_memory_clear | a_memory_recall | a_memory_add | a_memory_subtract.

Definition handleAction (a : action) (c : calculator) : calculator :=
  match a with
  | a_clear => clear c
  | a_decimal => inputDecimal c
  | a_equals => calculate c
  | a_operator o => setOperator o c
  | a_percentage => calculatePercentage c
  | a_square_root => calculateSquareRoot c
  | a_memory_clear => memoryClear c
  | a_memory_recall => memoryRecall c
  | a_memory_add => memoryAdd c
  | a_memory_subtract => memorySubtract c
  end.

(** The state the constructor leaves: the fields as initialised, the
    display rendered by [init]. *)
Definition new_calculator : calculator :=
  updateDisplay
    (mkCalculator "" false "" None "0" None None false zero []).

(** A timer that fires runs its callback. *)
Definition run_callback (cb : callback) (c : calculator) : calculator :=
  match cb with
  | CallClear => clear c
  | RestoreText originalText => set_operationDisplay originalText c
  end.

End Calculator.

(* ================================================================= *)
(** ** The event loop *)

Module EventLoop.
Import JSString JSNumber Calculator.

(** What the page can deliver to the calculator: a number button or
    digit key, an action, or a pending timer that fires. *)
Inductive event : Type :=
| Number (number : string)
| Action (a : action)
| Timer (i : nat).

(** Remove the timer at index [i]. *)
Fixpoint remove_timer (i : nat) (ts : list (Z * callback))
  : list (Z * callback) :=
  match ts, i with
  | [], _ => []
  | _ :: r, O => r
  | t :: r, S j => t :: remove_timer j r
  end.

Definition set_timers (ts : list (Z * callback)) (c : calculator)
  : calculator :=
  mkCalculator (display c) (displayError c) (operationDisplay c)
    (activeButton c) (currentInput c) (previousInput c) (operator c)
    (waitingForNewInput c) (memory c) ts.

Definition step (e : event) (c : calculator) : calculator :=
  match e with
  | Number number => inputNumber number c
  | Action a => handleAction a c
  | Timer i =>
      match nth_error (timers c) i with
      | Some (_, cb) =>
          run_callback cb (set_timers (remove_timer i (timers c)) c)
      | None => c
      end
  end.

Definition run (es : list event) (c : calculator) : calculator :=
  fold_left (fun c e => step e c) es c.

(** One key per character of [keys]: ['.'] is the decimal action, any
    other character a number key. *)
Definition key (ch : ascii) : event :=
  if Ascii.eqb ch "." then Action a_decimal
  else Number (String ch EmptyString).

Definition type_keys (keys : string) (c : calculator) : calculator :=
  run (map key (list_ascii_of_string keys)) c.

(** The events the page really delivers: a number key carries one
    digit. *)
Definition event_ok (e : event) : bool :=
  match e with
  | Number (String d EmptyString) => is_digit d
  | Number _ => false
  | _ => true
  end.

(** The states the page can bring the calculator to. *)
Definition reachable (c : calculator) : Prop :=
  exists es : list event,
    forallb event_ok es = true /\ c = run es new_calculator.

(** What holds of the entry in every reachable state: it is not empty,
    it has at most one decimal point, and while it is under
    construction it has at most 12 characters besides the decimal
    point. *)
Definition entry_invariant (c : calculator) : Prop :=
  currentInput c <> ""
  /\ (count "." (currentInput c) <= 1)%nat
  /\ (waitingForNewInput c = false ->
      len (currentInput c) <= 12 + Z.of_nat (count "." (currentInput c))).

End EventLoop.

(* ================================================================= *)
(** ** The documented behaviour, written down independently *)

Module Policy.
Import JSString JSNumber.

(** Number of characters after the decimal point of a plain decimal
    string: its fractional digits. *)
Fixpoint fraction_length (s : string) : Z :=
  match s with
  | EmptyString => 0
  | String a r => if Ascii.eqb a "." then len r else fraction_length r
  end.

Fixpoint strip_trailing_zeros (s : string) : string :=
  match s with
  | EmptyString => EmptyString
  | String a r =>
      match strip_trailing_zeros r with
      | EmptyString =>
          if Ascii.eqb a "0" then EmptyString else String a EmptyString
      | r' => String a r'
      end
  end.

Fixpoint ends_with_point (s : string) : bool :=
  match s with
  | EmptyString => false
  | String a EmptyString => Ascii.eqb a "."
  | String _ r => ends_with_point r
  end.

Fixpoint drop_last (s : string) : string :=
  match s with
  | EmptyString => EmptyString
  | String _ EmptyString => EmptyString
  | String a r => String a (drop_last r)
  end.

(** Strip the trailing zeros and, when that emptied the fraction, the
    decimal point left at the end. *)
Definition strip_fraction (s : string) : string :=
  let t := strip_trailing_zeros s in
  if String.eqb t s then s
  else if ends_with_point t then drop_last t else t.

(** The four steps of the formatting policy, in order. *)
Definition format_policy (value : number) : string :=
  if negb (isFinite value) then "Error"                        (* 1 *)
  else
    let magnitude := abs value in
    let rendered :=
      if ge magnitude lit_1e12
         || (le magnitude lit_1em6 && negb (strict_eq value zero))
      then toExponential 6 value                               (* 2 *)
      else
        let plain := toString value in                         (* 3 *)
        if 8 <? fraction_length plain
        then strip_fraction (toFixed 8 value)
        else plain in
    if 12 <? len rendered
    then toExponential 5 value                                 (* 4 *)
    else rendered.

(** The arithmetic an operator stands for. *)
Definition arithmetic (o : Calculator.binop) (x y : number) : number :=
  match o with
  | Calculator.add => add x y
  | Calculator.subtract => sub x y
  | Calculator.multiply => mul x y
  | Calculator.divide => div x y
  end.

(** A keyed sequence with its redundant leading zeros collapsed: a
    zero that another digit follows is dropped. *)
Definition starts_with_digit (s : string) : bool :=
  match s with
  | String ch _ => is_digit ch
  | EmptyString => false
  end.

Fixpoint collapse (s : string) : string :=
  match s with
  | String ch r =>
      if Ascii.eqb ch "0" && starts_with_digit r then collapse r else s
  | EmptyString => s
  end.

(** A valid entry: digits and decimal points only, beginning with a
    digit. *)
Definition entry_char (ch : ascii) : bool :=
  is_digit ch || Ascii.eqb ch ".".

Definition valid_entry (s : string) : bool :=
  starts_with_digit s && forallb entry_char (list_ascii_of_string s).

(** What a keyed sequence leaves in an entry that reads ["0"]: zeros
    keep the ["0"], a decimal point is appended to it, and the first
    other digit takes its place. *)
Fixpoint keyed_entry (s : string) : string :=
  match s with
  | EmptyString => "0"
  | String ch r =>
      if Ascii.eqb ch "0" then keyed_entry r
      else if Ascii.eqb ch "." then String "0" s
      else s
  end.

(** No zero at the front that another digit follows. *)
Definition no_redundant_zero (s : string) : bool :=
  match s with
  | String ch r => negb (Ascii.eqb ch "0" && starts_with_digit r)
  | EmptyString => true
  end.

End Policy.

(* ================================================================= *)
(** ** The listeners of the page *)

Module Page.
Import JSString JSNumber Calculator EventLoop.

(** The [switch] of [handleAction] on the action's name; a name that
    no [case] lists falls through it. *)
Definition action_of_name (name : string) : option action :=
  if String.eqb name "clear" then Some a_clear
  else if String.eqb name "decimal" then Some a_decimal
  else if String.eqb name "equals" then Some a_equals
  else if String.eqb name "add" then Some (a_operator add)
  else if String.eqb name "subtract" then Some (a_operator subtract)
  else if String.eqb name "multiply" then Some (a_operator multiply)
  else if String.eqb name "divide" then Some (a_operator divide)
  else if String.eqb name "percentage" then Some a_percentage
  else if String.eqb name "square-root" then Some a_square_root
  else if String.eqb name "memory-clear" then Some a_memory_clear
  else if String.eqb name "memory-recall" then Some a_memory_recall
  else if String.eqb name "memory-add" then Some a_memory_add
  else if String.eqb name "memory-subtract" then Some a_memory_subtract
  else None.

Definition handleActionName (name : string) (c : calculator) : calculator :=
  match action_of_name name with
  | Some a => handleAction a c
  | None => c
  end.

(** The click listeners of [setupButtonListeners]. *)
Definition click_number (number : string) (c : calculator) : calculator :=
  inputNumber number c.

Definition click_action (name : string) (c : calculator) : calculator :=
  handleActionName name c.

(** The [keydown] listener of [setupKeyboardListeners].  [key >= '0']
    and [key <= '9'] compare strings, code unit by code unit. *)
Definition keydown (key : string) (c : calculator) : calculator :=
  if String.leb "0" key && String.leb key "9" then inputNumber key c
  else if String.eqb key "." then handleActionName "decimal" c
  else if String.eqb key "+" then handleActionName "add" c
  else if String.eqb key "-" then handleActionName "subtract" c
  else if String.eqb key "*" then handleActionName "multiply" c
  else if String.eqb key "/" then handleActionName "divide" c
  else if String.eqb key "Enter" || String.eqb key "="
  then handleActionName "equals" c
  else if String.eqb key "Escape" || String.eqb key "c" || String.eqb key "C"
  then handleActionName "clear" c
  else if String.eqb key "%" then handleActionName "percentage" c
  else if String.eqb key "Backspace" then handleActionName "clear" c
  else c.

(** One [keydown] per character of [keys]. *)
Definition press_keys (keys : string) (c : calculator) : calculator :=
  fold_left (fun c ch => keydown (String ch EmptyString) c)
    (list_ascii_of_string keys) c.

(** The message a memory action shows in the trace. *)
Definition memory_message (a : action) : option string :=
  match a with
  | a_memory_clear => Some "Memory cleared"
  | a_memory_recall => Some "Memory recalled"
  | a_memory_add => Some "Added to memory"
  | a_memory_subtract => Some "Subtracted from memory"
  | _ => None
  end.

Definition not_timer (e : event) : bool :=
  match e with
  | Timer _ => false
  | _ => true
  end.

(** The characters a finite Number is printed with. *)
Definition number_char (a : ascii) : bool :=
  is_digit a || Ascii.eqb a "." || Ascii.eqb a "e"
  || Ascii.eqb a "+" || Ascii.eqb a "-".

(** The display shows the entry, or one of the two error messages with
    the error class set and a [clear] waiting in the timer queue. *)
Definition display_invariant (c : calculator) : Prop :=
  (displayError c = false /\ display c = currentInput c)
  \/ (displayError c = true
      /\ (display c = "Cannot divide by zero"
          \/ display c = "Invalid input for square root")
      /\ In (2000, CallClear) (timers c)).

End Page.

Import JSString JSNumber Calculator EventLoop Policy.

(* ================================================================= *)
(** ** Frame properties of the handlers *)

(** C8: [calculatePercentage] replaces the entry by the formatted
    hundredth of its value, writes the trace ["<entry>% ="], arms the
    fresh-entry flag, and leaves the pending operator, the pending
    operand and the memory register as they were. *)
Theorem C8_percentage_frame :
  forall c : calculator,
    let c' := calculatePercentage c in
    currentInput c' = formatResult (div (parseFloat (currentInput c)) lit_100)
    /\ operationDisplay c' = currentInput c ++ "% ="
    /\ waitingForNewInput c' = true
    /\ operator c' = operator c
    /\ previousInput c' = previousInput c
    /\ memory c' = memory c
    /\ display c' = currentInput c'.
Proof.
  intro c; cbv zeta.
  unfold calculatePercentage, updateDisplay; simpl.
  repeat split.
Qed.

(** The value of the literal [100] that the percentage divides by. *)
Lemma lit_100_value : lit_100 = parseFloat "100".
Proof. vm_compute. reflexivity. Qed.

(** A percentage taken in the middle of a chain leaves the chain armed:
    [200 + 10 %] then [=] adds a tenth. *)
Example percentage_mid_chain :
  let c := new_calculator
             |> type_keys "200" |> setOperator add
             |> type_keys "10" |> calculatePercentage in
  operator c = Some add /\ previousInput c = Some "200"
  /\ currentInput c = "0.1"
  /\ currentInput (calculate c) = "200.1".
Proof. vm_compute. repeat split. Qed.

(** Whatever a handler other than the memory ones does, the memory
    register keeps its value. *)
Lemma memory_frame :
  forall (e : event) (c : calculator),
    e <> Action a_memory_clear ->
    e <> Action a_memory_add ->
    e <> Action a_memory_subtract ->
    memory (step e c) = memory c.
Proof.
  intros e c Hclear Hadd Hsub.
  destruct e as [number | a | i].
  - unfold step, inputNumber, updateDisplay.
    repeat match goal with |- context [if ?b then _ else _] => destruct b end;
      reflexivity.
  - destruct a; try congruence; unfold step, handleAction.
    + reflexivity.
    + unfold inputDecimal, updateDisplay.
      repeat match goal with |- context [if ?b then _ else _] => destruct b end;
        reflexivity.
    + unfold calculate.
      destruct (operator c) as [o|]; [|reflexivity].
      destruct (previousInput c) as [p|]; [|reflexivity].
      destruct (compute o _ _); reflexivity.
    + unfold setOperator, calculate.
      destruct (operator c) as [o'|]; [|reflexivity].
      destruct (waitingForNewInput c); [reflexivity|]. cbn [negb].
      destruct (previousInput c) as [p|]; [|reflexivity].
      destruct (compute o' _ _); reflexivity.
    + reflexivity.
    + unfold calculateSquareRoot.
      destruct (lt _ _); reflexivity.
    + reflexivity.
  - unfold step.
    destruct (nth_error (timers c) i) as [[d cb]|]; [|reflexivity].
    destruct cb; reflexivity.
Qed.

(** C9: [clear] puts the entry back to ["0"], unsets the pending
    operand and operator, lowers the fresh-entry flag, empties the
    trace and leaves the error state, and keeps the memory register;
    [memoryClear] sets the register to 0, and among all events only the
    three memory-writing actions change the register at all:
    [memoryAdd] and [memorySubtract] by the value of the entry. *)
Theorem C9_clear_frame :
  (forall c : calculator,
      let c' := clear c in
      currentInput c' = "0"
      /\ previousInput c' = None
      /\ operator c' = None
      /\ waitingForNewInput c' = false
      /\ operationDisplay c' = ""
      /\ displayError c' = false
      /\ display c' = "0"
      /\ memory c' = memory c)
  /\ (forall c : calculator, memory (memoryClear c) = zero)
  /\ (forall (e : event) (c : calculator),
         memory (step e c) = memory c
         \/ e = Action a_memory_clear
         \/ (e = Action a_memory_add
             /\ memory (step e c)
                = JSNumber.add (memory c) (parseFloat (currentInput c)))
         \/ (e = Action a_memory_subtract
             /\ memory (step e c)
                = sub (memory c) (parseFloat (currentInput c)))).
Proof.
  split; [|split].
  - intro c; cbv zeta. unfold clear, updateDisplay; simpl. repeat split.
  - intro c. reflexivity.
  - intros e c.
    destruct e as [number | a | i];
      try (left; apply memory_frame; congruence).
    destruct a; try (left; apply memory_frame; congruence).
    + right; left; reflexivity.
    + right; right; left; split; reflexivity.
    + right; right; right; split; reflexivity.
Qed.

(** Clearing twice is clearing once. *)
Lemma clear_idempotent : forall c, clear (clear c) = clear c.
Proof. intro c. reflexivity. Qed.

(** The memory register survives a clear and is recalled after it. *)
Example memory_survives_clear :
  let c := new_calculator
             |> type_keys "5" |> memoryAdd |> clear
             |> type_keys "3" |> memoryAdd |> clear
             |> memoryRecall in
  currentInput c = "8".
Proof. vm_compute. reflexivity. Qed.

(* ================================================================= *)
(** ** The error state *)

(** What [showError] leaves behind: the message in the display, the
    error class, an empty trace, one more timer that will clear; the
    fields of the engine are not written. *)
Lemma showError_effect :
  forall (message : string) (c : calculator),
    let c' := showError message c in
    display c' = message
    /\ displayError c' = true
    /\ operationDisplay c' = ""
    /\ timers c' = (timers c ++ [(2000, CallClear)])%list
    /\ currentInput c' = currentInput c
    /\ previousInput c' = previousInput c
    /\ operator c' = operator c
    /\ waitingForNewInput c' = waitingForNewInput c
    /\ memory c' = memory c.
Proof. intros message c; cbv zeta. unfold showError; simpl. repeat split. Qed.

(** A division whose right operand is zero is the one case in which
    the [switch] of [calculate] has no result. *)
Lemma compute_error :
  forall o prev current message,
    compute o prev current = inr message <->
    o = divide /\ strict_eq current zero = true
    /\ message = "Cannot divide by zero".
Proof.
  intros o prev current message; split.
  - destruct o; simpl; try discriminate.
    destruct (strict_eq current zero); [|discriminate].
    intros [= <-]; auto.
  - intros (-> & Hz & ->); simpl. rewrite Hz. reflexivity.
Qed.

Lemma compute_result :
  forall o prev current,
    (o = divide -> strict_eq current zero = false) ->
    compute o prev current = inl (arithmetic o prev current).
Proof.
  intros [] prev current H; simpl; try reflexivity.
  rewrite H; reflexivity.
Qed.

(** With an operand pending, a division by an entry that parses to zero
    does nothing but show the error. *)
Lemma calculate_divide_by_zero :
  forall (c : calculator) (p : string),
    operator c = Some divide ->
    previousInput c = Some p ->
    strict_eq (parseFloat (currentInput c)) zero = true ->
    calculate c = showError "Cannot divide by zero" c.
Proof.
  intros c p Hop Hprev Hzero.
  unfold calculate. rewrite Hop, Hprev.
  cbn [compute]. rewrite Hzero. reflexivity.
Qed.

(** C10: a division by zero is atomic for the engine.  With [divide]
    pending and an entry that parses to zero, [calculate] leaves the
    entry, the pending operand and operator, the fresh-entry flag and
    the memory register as they were; with a pending operand it shows
    the error, so only the display, the error class, the trace and the
    timer queue change, and the division stays armed. *)
Theorem C10_divide_by_zero_atomic :
  forall c : calculator,
    operator c = Some divide ->
    strict_eq (parseFloat (currentInput c)) zero = true ->
    let c' := calculate c in
    currentInput c' = currentInput c
    /\ previousInput c' = previousInput c
    /\ operator c' = Some divide
    /\ waitingForNewInput c' = waitingForNewInput c
    /\ memory c' = memory c
    /\ (forall p, previousInput c = Some p ->
                  c' = showError "Cannot divide by zero" c).
Proof.
  intros c Hop Hzero; cbv zeta.
  assert (Hcalc : forall p, previousInput c = Some p ->
                            calculate c = showError "Cannot divide by zero" c).
  { intros p Hprev. apply (calculate_divide_by_zero c p); assumption. }
  destruct (previousInput c) as [p|] eqn:Hprev.
  - rewrite (Hcalc p eq_refl).
    destruct (showError_effect "Cannot divide by zero" c)
      as (_ & _ & _ & _ & H1 & H2 & H3 & H4 & H5).
    rewrite H1, H2, H3, H4, H5, Hprev, Hop. repeat split.
  - unfold calculate. rewrite Hop, Hprev. rewrite Hop, Hprev.
    repeat split. discriminate.
Qed.

Lemma C10_divide_by_zero_atomic_witness :
  let c := new_calculator
             |> type_keys "10" |> setOperator divide |> type_keys "0" in
  let c' := calculate c in
  currentInput c' = "0"
  /\ previousInput c' = Some "10"
  /\ operator c' = Some divide
  /\ waitingForNewInput c' = false
  /\ memory c' = zero.
Proof.
  cbv zeta.
  pose proof (C10_divide_by_zero_atomic
                (new_calculator
                   |> type_keys "10" |> setOperator divide |> type_keys "0")
                eq_refl eq_refl) as H.
  cbv zeta in H.
  destruct H as (H1 & H2 & H3 & H4 & H5 & _).
  rewrite H1, H2, H3, H4, H5.
  vm_compute. repeat split.
Defined.

(** A Number that is [>= 0] is not [< 0]. *)
Lemma ge_zero_not_lt : forall x : number, ge x zero = true -> lt x zero = false.
Proof.
  intros [s | s | | s m e]; unfold ge, lt, zero, SFleb, SFltb; simpl;
    try destruct s; simpl; congruence.
Qed.

(** C6: with an entry that parses below zero, [calculateSquareRoot]
    shows the error ["Invalid input for square root"] and writes no
    field of the engine; with an entry that parses to zero or more it
    stores the formatted root as the entry, the trace ["√<entry> ="],
    and arms the fresh-entry flag.  The root of 16 is displayed as 4. *)
Theorem C6_square_root :
  (forall c : calculator,
      lt (parseFloat (currentInput c)) zero = true ->
      let c' := calculateSquareRoot c in
      display c' = "Invalid input for square root"
      /\ displayError c' = true
      /\ operationDisplay c' = ""
      /\ timers c' = (timers c ++ [(2000, CallClear)])%list
      /\ currentInput c' = currentInput c
      /\ previousInput c' = previousInput c
      /\ operator c' = operator c
      /\ waitingForNewInput c' = waitingForNewInput c
      /\ memory c' = memory c)
  /\ (forall c : calculator,
         ge (parseFloat (currentInput c)) zero = true ->
         let c' := calculateSquareRoot c in
         currentInput c' = formatResult (sqrt (parseFloat (currentInput c)))
         /\ operationDisplay c' = "√" ++ currentInput c ++ " ="
         /\ waitingForNewInput c' = true
         /\ displayError c' = false
         /\ display c' = currentInput c')
  /\ (let c := calculateSquareRoot (type_keys "16" new_calculator) in
      currentInput c = "4" /\ operationDisplay c = "√16 =").
Proof.
  split; [|split].
  - intros c Hneg; cbv zeta.
    unfold calculateSquareRoot. rewrite Hneg.
    apply showError_effect.
  - intros c Hpos; cbv zeta.
    unfold calculateSquareRoot. rewrite (ge_zero_not_lt _ Hpos).
    unfold updateDisplay; simpl. repeat split.
  - vm_compute. split; reflexivity.
Qed.

Lemma C6_square_root_witness :
  (let c := new_calculator
              |> type_keys "4" |> setOperator subtract
              |> type_keys "8" |> calculate in
   currentInput c = "-4"
   /\ display (calculateSquareRoot c) = "Invalid input for square root"
   /\ currentInput (calculateSquareRoot c) = "-4")
  /\ currentInput (calculateSquareRoot (type_keys "2.25" new_calculator))
     = "1.5".
Proof.
  destruct C6_square_root as (Hneg & Hpos & _).
  split.
  - cbv zeta.
    pose proof (Hneg (new_calculator
                        |> type_keys "4" |> setOperator subtract
                        |> type_keys "8" |> calculate) eq_refl) as H.
    cbv zeta in H. destruct H as (H1 & _ & _ & _ & H2 & _).
    rewrite H1, H2. vm_compute. repeat split.
  - pose proof (Hpos (type_keys "2.25" new_calculator) eq_refl) as H.
    cbv zeta in H. destruct H as (H1 & _).
    rewrite H1. vm_compute. reflexivity.
Defined.

(** Only a division by zero and a negative square root raise the error
    state: when an event leaves the error class set, either it was set
    before, or the event evaluated a pending division whose right
    operand parses to zero ([=], or an operator that chains), or it was
    a square root of an entry that parses below zero. *)
Lemma error_state_origin :
  forall (e : event) (c : calculator),
    displayError (step e c) = true ->
    displayError c = true
    \/ ((e = Action a_equals
         \/ exists o, e = Action (a_operator o)
                      /\ waitingForNewInput c = false)
        /\ operator c = Some divide
        /\ previousInput c <> None
        /\ strict_eq (parseFloat (currentInput c)) zero = true)
    \/ (e = Action a_square_root
        /\ lt (parseFloat (currentInput c)) zero = true).
Proof.
  intros e c.
  assert (Hcalc : displayError (calculate c) = true ->
                  displayError c = true
                  \/ (operator c = Some divide
                      /\ previousInput c <> None
                      /\ strict_eq (parseFloat (currentInput c)) zero = true)).
  { unfold calculate.
    destruct (operator c) as [o|]; [|auto].
    destruct (previousInput c) as [p|]; [|auto].
    destruct (compute o _ _) as [r | message] eqn:Hc.
    - simpl. discriminate.
    - apply compute_error in Hc. destruct Hc as (-> & Hz & _).
      intros _. right. repeat split; [discriminate | exact Hz]. }
  destruct e as [number | a | i].
  - unfold step, inputNumber, updateDisplay; simpl. discriminate.
  - destruct a; unfold step, handleAction.
    + unfold clear, updateDisplay; simpl. discriminate.
    + unfold inputDecimal, updateDisplay; simpl. discriminate.
    + intros H. destruct (Hcalc H) as [H' | H']; [auto|].
      right; left. split; [left; reflexivity | exact H'].
    + unfold setOperator.
      destruct (operator c) as [o'|] eqn:Hop; [|simpl; auto].
      destruct (waitingForNewInput c) eqn:Hw; [simpl; auto|].
      cbn [negb]. simpl. intros H.
      destruct (Hcalc H) as [H' | H']; [auto|].
      right; left. split; [right; exists o; auto | exact H'].
    + unfold calculatePercentage, updateDisplay; simpl. discriminate.
    + unfold calculateSquareRoot.
      destruct (lt _ _) eqn:Hlt.
      * intros _. right; right. auto.
      * unfold updateDisplay; simpl. discriminate.
    + simpl; auto.
    + unfold memoryRecall, updateDisplay; simpl. discriminate.
    + simpl; auto.
    + simpl; auto.
  - unfold step.
    destruct (nth_error (timers c) i) as [[d cb]|]; [|auto].
    destruct cb; simpl; [discriminate | auto].
Qed.

(** C5: with [divide] and an operand pending and an entry that parses
    to zero, [calculate] produces no number: it sets the error class,
    shows ["Cannot divide by zero"], empties the trace and schedules a
    [clear] 2000 ms later; that [clear], whenever it runs, leaves the
    entry ["0"] and the error class unset.  No event raises the error
    state except such a division and the square root of an entry that
    parses below zero. *)
Theorem C5_divide_by_zero_error :
  (forall (c : calculator) (p : string),
      operator c = Some divide ->
      previousInput c = Some p ->
      strict_eq (parseFloat (currentInput c)) zero = true ->
      let c' := calculate c in
      displayError c' = true
      /\ display c' = "Cannot divide by zero"
      /\ operationDisplay c' = ""
      /\ currentInput c' = currentInput c
      /\ timers c' = (timers c ++ [(2000, CallClear)])%list)
  /\ (forall c : calculator,
         currentInput (run_callback CallClear c) = "0"
         /\ display (run_callback CallClear c) = "0"
         /\ displayError (run_callback CallClear c) = false)
  /\ (forall (e : event) (c : calculator),
         displayError c = false ->
         displayError (step e c) = true ->
         ((e = Action a_equals
           \/ exists o, e = Action (a_operator o)
                        /\ waitingForNewInput c = false)
          /\ operator c = Some divide
          /\ previousInput c <> None
          /\ strict_eq (parseFloat (currentInput c)) zero = true)
         \/ (e = Action a_square_root
             /\ lt (parseFloat (currentInput c)) zero = true)).
Proof.
  split; [|split].
  - intros c p Hop Hprev Hzero; cbv zeta.
    rewrite (calculate_divide_by_zero c p Hop Hprev Hzero).
    destruct (showError_effect "Cannot divide by zero" c)
      as (H1 & H2 & H3 & H4 & H5 & _).
    auto.
  - intro c. unfold run_callback, clear, updateDisplay; simpl. repeat split.
  - intros e c Hclean Herr.
    destruct (error_state_origin e c Herr) as [H | H]; [congruence | exact H].
Qed.

Lemma C5_divide_by_zero_error_witness :
  let c := new_calculator
             |> type_keys "10" |> setOperator divide |> type_keys "0" in
  displayError (calculate c) = true
  /\ display (calculate c) = "Cannot divide by zero"
  /\ timers (calculate c) = [(2000, CallClear)]
  /\ currentInput (step (Timer 0) (calculate c)) = "0"
  /\ operator c = Some divide.
Proof.
  cbv zeta.
  destruct C5_divide_by_zero_error as (Herr & Hclear & Honly).
  pose proof (Herr (new_calculator
                      |> type_keys "10" |> setOperator divide |> type_keys "0")
                "10" eq_refl eq_refl eq_refl) as H.
  cbv zeta in H. destruct H as (H1 & H2 & _ & _ & H3).
  rewrite H1, H2, H3.
  pose proof (Honly (Action a_equals)
                (new_calculator
                   |> type_keys "10" |> setOperator divide |> type_keys "0")
                eq_refl H1) as H.
  destruct H as [(_ & Hop & _) | (Habs & _)]; [|discriminate Habs].
  rewrite Hop.
  vm_compute. repeat split.
Defined.

(* ================================================================= *)
(** ** Operator chaining *)

(** What [calculate] does when the pending computation has a result. *)
Lemma calculate_result :
  forall (c : calculator) (o : binop) (p : string),
    operator c = Some o ->
    previousInput c = Some p ->
    (o = divide -> strict_eq (parseFloat (currentInput c)) zero = false) ->
    let r := formatResult
               (arithmetic o (parseFloat p) (parseFloat (currentInput c))) in
    let c' := calculate c in
    currentInput c' = r
    /\ display c' = r
    /\ operator c' = None
    /\ previousInput c' = None
    /\ waitingForNewInput c' = true
    /\ operationDisplay c'
       = p ++ " " ++ operatorSymbols o ++ " " ++ currentInput c ++ " ="
    /\ memory c' = memory c
    /\ displayError c' = false.
Proof.
  intros c o p Hop Hprev Hdiv; cbv zeta.
  unfold calculate. rewrite Hop, Hprev.
  rewrite (compute_result o _ _ Hdiv).
  unfold updateDisplay; simpl. repeat split.
Qed.

(** C1, as amended.  When [setOperator] is called with an operator and
    an operand pending and the fresh-entry flag down, and the pending
    computation is not a division by an entry that parses to zero, the
    pending computation is evaluated first: its formatted result is the
    new entry and the new pending operand, the new operator is pending,
    and the trace shows the result and the new symbol.  Keys [2 + 3 ×]
    leave the pending operand ["5"], and [4 =] after them the entry
    ["20"]: the chain is evaluated from the left, without precedence. *)
Theorem C1_operator_chaining :
  (forall (c : calculator) (o o' : binop) (p : string),
      operator c = Some o' ->
      previousInput c = Some p ->
      waitingForNewInput c = false ->
      (o' = divide ->
       strict_eq (parseFloat (currentInput c)) zero = false) ->
      let r := formatResult
                 (arithmetic o' (parseFloat p) (parseFloat (currentInput c))) in
      let c' := setOperator o c in
      previousInput c' = Some r
      /\ currentInput c' = r
      /\ operator c' = Some o
      /\ waitingForNewInput c' = true
      /\ operationDisplay c' = r ++ " " ++ operatorSymbols o)
  /\ (let c := new_calculator
                 |> type_keys "2" |> setOperator add
                 |> type_keys "3" |> setOperator multiply in
      previousInput c = Some "5"
      /\ operator c = Some multiply
      /\ currentInput (calculate (type_keys "4" c)) = "20").
Proof.
  split.
  - intros c o o' p Hop Hprev Hwait Hdiv; cbv zeta.
    destruct (calculate_result c o' p Hop Hprev Hdiv) as (Hcur & _).
    unfold setOperator. rewrite Hop, Hwait. cbn [negb].
    unfold updateOperatorButtons; simpl.
    rewrite Hcur. repeat split.
  - vm_compute. repeat split.
Qed.

Lemma C1_operator_chaining_witness :
  let c := new_calculator
             |> type_keys "7" |> setOperator subtract |> type_keys "2.5" in
  previousInput (setOperator divide c) = Some "4.5"
  /\ operator (setOperator divide c) = Some divide.
Proof.
  cbv zeta.
  destruct C1_operator_chaining as (Hchain & _).
  assert (Hnd : subtract = divide ->
                strict_eq
                  (parseFloat
                     (currentInput
                        (new_calculator
                           |> type_keys "7" |> setOperator subtract
                           |> type_keys "2.5"))) zero = false)
    by discriminate.
  pose proof (Hchain (new_calculator
                        |> type_keys "7" |> setOperator subtract
                        |> type_keys "2.5")
                divide subtract "7" eq_refl eq_refl eq_refl Hnd) as H.
  cbv zeta in H. destruct H as (H1 & _ & H2 & _).
  rewrite H1, H2. vm_compute. split; reflexivity.
Defined.

(** The claim as it was stated does not hold of a pending division by
    zero: after keys [6 ÷ 0], an operator and an operand are pending and
    the fresh-entry flag is down, yet [setOperator add] makes the entry
    ["0"] the pending operand, where the formatted quotient would be
    ["Error"], and leaves the error showing. *)
Lemma C1_chaining_counterexample :
  let c := new_calculator
             |> type_keys "6" |> setOperator divide |> type_keys "0" in
  operator c = Some divide
  /\ previousInput c = Some "6"
  /\ waitingForNewInput c = false
  /\ formatResult
       (arithmetic divide (parseFloat "6") (parseFloat (currentInput c)))
     = "Error"
  /\ compute divide (parseFloat "6") (parseFloat (currentInput c))
     = inr "Cannot divide by zero"
  /\ previousInput (setOperator add c) = Some "0"
  /\ previousInput (setOperator add c)
     <> Some (formatResult
                (arithmetic divide (parseFloat "6")
                   (parseFloat (currentInput c))))
  /\ displayError (setOperator add c) = true.
Proof. vm_compute. repeat split. discriminate. Qed.

(* ================================================================= *)
(** ** Strings that are not numbers *)

Lemma add_NaN_l : forall x, JSNumber.add NaN x = NaN.
Proof. intros []; reflexivity. Qed.
Lemma add_NaN_r : forall x, JSNumber.add x NaN = NaN.
Proof. intros []; reflexivity. Qed.
Lemma sub_NaN_l : forall x, sub NaN x = NaN.
Proof. intros []; reflexivity. Qed.
Lemma sub_NaN_r : forall x, sub x NaN = NaN.
Proof. intros []; reflexivity. Qed.
Lemma mul_NaN_l : forall x, mul NaN x = NaN.
Proof. intros []; reflexivity. Qed.
Lemma mul_NaN_r : forall x, mul x NaN = NaN.
Proof. intros []; reflexivity. Qed.
Lemma div_NaN_l : forall x, div NaN x = NaN.
Proof. intros []; reflexivity. Qed.
Lemma div_NaN_r : forall x, div x NaN = NaN.
Proof. intros []; reflexivity. Qed.

Lemma arithmetic_NaN :
  forall o x y, x = NaN \/ y = NaN -> arithmetic o x y = NaN.
Proof.
  intros [] x y [-> | ->]; simpl;
    auto using add_NaN_l, add_NaN_r, sub_NaN_l, sub_NaN_r,
               mul_NaN_l, mul_NaN_r, div_NaN_l, div_NaN_r.
Qed.

Lemma formatResult_NaN : formatResult NaN = "Error".
Proof. reflexivity. Qed.

(** C4, as amended.  A string without a numeric prefix, such as
    ["Error"], parses to NaN, not to 0, and the NaN propagates:
    [calculatePercentage] makes the entry ["Error"], [memoryAdd] and
    [memorySubtract] make the memory register NaN, and [calculate],
    when either operand parses to NaN and the computation is not a
    division by zero, makes the entry ["Error"]. *)
Theorem C4_malformed_propagates :
  parseFloat "Error" = NaN
  /\ (forall c : calculator,
         parseFloat (currentInput c) = NaN ->
         currentInput (calculatePercentage c) = "Error"
         /\ memory (memoryAdd c) = NaN
         /\ memory (memorySubtract c) = NaN)
  /\ (forall (c : calculator) (o : binop) (p : string),
         operator c = Some o ->
         previousInput c = Some p ->
         parseFloat p = NaN \/ parseFloat (currentInput c) = NaN ->
         (o = divide ->
          strict_eq (parseFloat (currentInput c)) zero = false) ->
         currentInput (calculate c) = "Error").
Proof.
  split; [|split].
  - vm_compute. reflexivity.
  - intros c Hnan.
    unfold calculatePercentage, memoryAdd, memorySubtract,
      showTemporaryMessage, updateDisplay; simpl.
    rewrite Hnan, div_NaN_l, add_NaN_r, sub_NaN_r. auto.
  - intros c o p Hop Hprev Hnan Hdiv.
    destruct (calculate_result c o p Hop Hprev Hdiv) as (-> & _).
    rewrite (arithmetic_NaN o _ _ Hnan). reflexivity.
Qed.

Lemma C4_malformed_propagates_witness :
  let c := set_currentInput "Error" new_calculator in
  currentInput (calculatePercentage c) = "Error"
  /\ memory (memoryAdd c) = NaN
  /\ currentInput
       (calculate (c |> set_operator (Some add)
                     |> set_previousInput (Some "1")))
     = "Error".
Proof.
  cbv zeta.
  destruct C4_malformed_propagates as (_ & Hunary & Hbinary).
  destruct (Hunary (set_currentInput "Error" new_calculator) eq_refl)
    as (H1 & H2 & _).
  assert (Hnd : add = divide ->
                strict_eq
                  (parseFloat
                     (currentInput
                        (set_currentInput "Error" new_calculator
                           |> set_operator (Some add)
                           |> set_previousInput (Some "1")))) zero = false)
    by discriminate.
  pose proof (Hbinary (set_currentInput "Error" new_calculator
                         |> set_operator (Some add)
                         |> set_previousInput (Some "1"))
                add "1" eq_refl eq_refl (or_intror eq_refl) Hnd) as H3.
  auto.
Defined.

(** The claim as it was stated fails on the entry ["Error"], which five
    squarings of 999999999999 leave behind.  With 5 in the memory
    register and the operand treated as 0, a percentage would display
    ["0"], [memoryAdd] would keep the register at 5 and [Error + 1]
    would display ["1"]; the code displays ["Error"] twice and makes
    the register NaN. *)
Lemma C4_malformed_counterexample :
  let square c := c |> setOperator multiply |> calculate in
  let c := new_calculator
             |> type_keys "5" |> memoryAdd |> clear
             |> type_keys "999999999999"
             |> square |> square |> square |> square |> square in
  currentInput c = "Error"
  /\ memory c = parseFloat "5"
  /\ parseFloat (currentInput c) = NaN
  /\ currentInput (calculatePercentage c) = "Error"
  /\ formatResult (div zero lit_100) = "0"
  /\ memory (memoryAdd c) = NaN
  /\ JSNumber.add (memory c) zero = parseFloat "5"
  /\ memory (memorySubtract c) = NaN
  /\ currentInput (c |> setOperator add |> type_keys "1" |> calculate)
     = "Error"
  /\ formatResult (JSNumber.add zero (parseFloat "1")) = "1".
Proof. vm_compute. repeat split. Qed.

(* ================================================================= *)
(** ** Entry of digits and the decimal point *)

Section StringFacts.

Lemma append_nil_r : forall s : string, s ++ "" = s.
Proof. induction s as [|a s IH]; simpl; congruence. Qed.

Lemma append_assoc :
  forall s t u : string, (s ++ t) ++ u = s ++ (t ++ u).
Proof. induction s as [|a s IH]; intros; simpl; congruence. Qed.

Lemma len_append : forall s t : string, len (s ++ t) = len s + len t.
Proof.
  unfold len. induction s as [|a s IH]; intro t; simpl String.length.
  - reflexivity.
  - specialize (IH t). lia.
Qed.

Lemma len_nonneg : forall s, 0 <= len s.
Proof. intro s. unfold len. lia. Qed.

Lemma len_String : forall a s, len (String a s) = 1 + len s.
Proof. intros. unfold len. simpl String.length. lia. Qed.

Lemma count_append :
  forall ch s t, count ch (s ++ t) = (count ch s + count ch t)%nat.
Proof.
  intros ch. induction s as [|a s IH]; intro t; simpl.
  - reflexivity.
  - rewrite IH. lia.
Qed.

Lemma includes_count :
  forall ch s, includes ch s = negb (Nat.eqb (count ch s) 0).
Proof.
  intros ch. induction s as [|a s IH]; simpl.
  - reflexivity.
  - destruct (Ascii.eqb a ch); simpl; auto.
Qed.

End StringFacts.

Lemma type_keys_nil : forall c, type_keys "" c = c.
Proof. reflexivity. Qed.

Lemma type_keys_cons :
  forall ch s c, type_keys (String ch s) c = type_keys s (step (key ch) c).
Proof. reflexivity. Qed.

(** One key on an entry under construction that is not ["0"], has no
    decimal point yet if the key is one, and has room if the key is a
    digit: the key is appended. *)
Lemma key_appends :
  forall (ch : ascii) (c : calculator),
    waitingForNewInput c = false ->
    currentInput c <> "0" ->
    (if Ascii.eqb ch "." then count "." (currentInput c) = O
     else len (currentInput c) < 12) ->
    currentInput (step (key ch) c) = currentInput c ++ String ch ""
    /\ waitingForNewInput (step (key ch) c) = false.
Proof.
  intros ch c Hw Hnz Hroom. unfold key.
  destruct (Ascii.eqb ch ".") eqn:Hdot.
  - apply Ascii.eqb_eq in Hdot; subst ch.
    unfold step, handleAction, inputDecimal. rewrite Hw.
    rewrite includes_count, Hroom. simpl. auto.
  - unfold step, inputNumber. rewrite Hw.
    apply String.eqb_neq in Hnz. rewrite Hnz. cbn [andb negb].
    apply Z.ltb_lt in Hroom. rewrite Hroom. simpl. auto.
Qed.

Lemma append_char_not_zero :
  forall s ch, s <> "" -> s ++ String ch "" <> "0".
Proof.
  intros [|a [|b s]] ch Hne; simpl; try congruence.
Qed.

(** Keys typed after an entry that is neither empty nor ["0"] are
    appended one by one while there is room for them. *)
Lemma type_keys_appends :
  forall (s : string) (c : calculator),
    waitingForNewInput c = false ->
    currentInput c <> "0" ->
    currentInput c <> "" ->
    (count "." (currentInput c ++ s) <= 1)%nat ->
    (forall ch, In ch (list_ascii_of_string s) ->
                Ascii.eqb ch "." = false -> len (currentInput c) + len s <= 12) ->
    currentInput (type_keys s c) = currentInput c ++ s.
Proof.
  induction s as [|ch s IH]; intros c Hw Hnz Hne Hdots Hlen.
  - rewrite type_keys_nil, append_nil_r. reflexivity.
  - rewrite type_keys_cons.
    destruct (key_appends ch c Hw Hnz) as [Hcur Hw'].
    { rewrite count_append in Hdots. simpl in Hdots.
      destruct (Ascii.eqb ch ".") eqn:Hdot.
      - lia.
      - specialize (Hlen ch (or_introl eq_refl) Hdot).
        rewrite len_String in Hlen. pose proof (len_nonneg s). lia. }
    rewrite IH; rewrite ?Hcur; auto.
    + rewrite append_assoc. reflexivity.
    + apply append_char_not_zero; assumption.
    + destruct (currentInput c); simpl; congruence.
    + rewrite append_assoc. exact Hdots.
    + intros ch' Hin Hnd. rewrite len_append.
      specialize (Hlen ch' (or_intror Hin) Hnd).
      rewrite len_String in Hlen. unfold len at 2. simpl. lia.
Qed.

(** Keys typed on an entry that reads ["0"]. *)
Lemma type_keys_from_zero :
  forall (s : string) (c : calculator),
    waitingForNewInput c = false ->
    currentInput c = "0" ->
    (count "." s <= 1)%nat ->
    len (keyed_entry s) <= 12 ->
    currentInput (type_keys s c) = keyed_entry s.
Proof.
  induction s as [|ch s IH]; intros c Hw Hcur Hdots Hlen.
  - exact Hcur.
  - rewrite type_keys_cons. cbn [keyed_entry] in Hlen |- *.
    destruct (Ascii.eqb ch "0") eqn:Hzero.
    + apply Ascii.eqb_eq in Hzero; subst ch.
      assert (Hstep : step (key "0") c = updateDisplay c).
      { unfold key, step, inputNumber; simpl. rewrite Hw, Hcur. reflexivity. }
      rewrite Hstep. apply IH; auto.
    + destruct (Ascii.eqb ch ".") eqn:Hdot.
      * apply Ascii.eqb_eq in Hdot; subst ch.
        assert (Hstep : currentInput (step (key ".") c) = "0."
                        /\ waitingForNewInput (step (key ".") c) = false).
        { unfold key, step, handleAction, inputDecimal; simpl.
          rewrite Hw, Hcur. simpl. auto. }
        destruct Hstep as [Hcur' Hw'].
        rewrite type_keys_appends; rewrite ?Hcur';
          [reflexivity | exact Hw' | discriminate | discriminate
          | exact Hdots | ].
        intros _ _ _. rewrite !len_String in *.
        change (len "") with 0. lia.
      * assert (Hstep : currentInput (step (key ch) c) = String ch ""
                        /\ waitingForNewInput (step (key ch) c) = false).
        { unfold key. rewrite Hdot. unfold step, inputNumber.
          rewrite Hw, Hcur. cbn [String.eqb]. rewrite Hzero.
          change (String.eqb "0" "0") with true. simpl. auto. }
        destruct Hstep as [Hcur' Hw'].
        rewrite type_keys_appends; rewrite ?Hcur';
          [reflexivity | exact Hw' | | discriminate | | ].
        -- intros [= ->]. discriminate.
        -- simpl in Hdots |- *. rewrite Hdot in *. exact Hdots.
        -- intros _ _ _. rewrite !len_String in *.
           change (len "") with 0. lia.
Qed.

Lemma collapse_keyed_entry :
  forall s : string,
    valid_entry s = true -> keyed_entry s = collapse s.
Proof.
  unfold valid_entry.
  induction s as [|ch s IH]; intro Hvalid; [discriminate|].
  apply andb_prop in Hvalid. destruct Hvalid as [Hdigit Hchars].
  cbn [starts_with_digit] in Hdigit.
  cbn [list_ascii_of_string forallb] in Hchars.
  apply andb_prop in Hchars. destruct Hchars as [_ Hchars].
  cbn [keyed_entry collapse].
  destruct (Ascii.eqb ch "0") eqn:Hzero; cbn [andb].
  - apply Ascii.eqb_eq in Hzero; subst ch.
    destruct (starts_with_digit s) eqn:Hs.
    + apply IH. exact Hchars.
    + destruct s as [|ch' s']; [reflexivity|].
      cbn [starts_with_digit] in Hs.
      cbn [list_ascii_of_string forallb] in Hchars.
      apply andb_prop in Hchars. destruct Hchars as [Hch' _].
      unfold entry_char in Hch'. rewrite Hs in Hch'. cbn [orb] in Hch'.
      cbn [keyed_entry]. rewrite Hch'.
      apply Ascii.eqb_eq in Hch'; subst ch'. reflexivity.
  - destruct (Ascii.eqb ch ".") eqn:Hdot; [|reflexivity].
    apply Ascii.eqb_eq in Hdot; subst ch. discriminate.
Qed.

Lemma len_collapse : forall s, len (collapse s) <= len s.
Proof.
  induction s as [|ch s IH]; cbn [collapse]; [lia|].
  destruct (Ascii.eqb ch "0" && starts_with_digit s); [|lia].
  rewrite len_String. lia.
Qed.

Lemma collapse_canonical :
  forall s, no_redundant_zero s = true -> collapse s = s.
Proof.
  intros [|ch s]; cbn [no_redundant_zero collapse]; [reflexivity|].
  destruct (Ascii.eqb ch "0" && starts_with_digit s); [discriminate|reflexivity].
Qed.

(** C3, as amended: keys typed on the cleared entry.  A sequence of
    digits and decimal points that begins with a digit, of at most 12
    characters
    with at most one decimal point leaves the entry equal to the
    sequence with its leading zeros collapsed, and so equal to the
    sequence itself when it has no zero at the front that a digit
    follows; ['5'] on the entry ["0"] gives ["5"].  A digit typed on an
    entry under construction of 12 characters or more, a decimal point
    typed on one that has a decimal point, and ['0'] typed on ["0"]
    only render the display again. *)
Theorem C3_entry_sequence :
  (forall (c : calculator) (s : string),
      currentInput c = "0" ->
      waitingForNewInput c = false ->
      valid_entry s = true ->
      (count "." s <= 1)%nat ->
      len s <= 12 ->
      currentInput (type_keys s c) = collapse s
      /\ (no_redundant_zero s = true -> currentInput (type_keys s c) = s))
  /\ (forall c : calculator,
         currentInput c = "0" ->
         waitingForNewInput c = false ->
         currentInput (inputNumber "5" c) = "5")
  /\ (forall (c : calculator) (number : string),
         waitingForNewInput c = false ->
         12 <= len (currentInput c) ->
         inputNumber number c = updateDisplay c)
  /\ (forall c : calculator,
         waitingForNewInput c = false ->
         includes "." (currentInput c) = true ->
         inputDecimal c = updateDisplay c)
  /\ (forall c : calculator,
         waitingForNewInput c = false ->
         currentInput c = "0" ->
         inputNumber "0" c = updateDisplay c).
Proof.
  repeat apply conj.
  - intros c s Hcur Hw Hvalid Hdots Hlen.
    assert (Heq : currentInput (type_keys s c) = collapse s).
    { rewrite <- (collapse_keyed_entry s Hvalid).
      apply type_keys_from_zero; auto.
      rewrite (collapse_keyed_entry s Hvalid).
      pose proof (len_collapse s). lia. }
    split; [exact Heq|].
    intro Hcanon. rewrite Heq. apply collapse_canonical; assumption.
  - intros c Hcur Hw. unfold inputNumber. rewrite Hw, Hcur. reflexivity.
  - intros c number Hw Hlen. unfold inputNumber. rewrite Hw.
    destruct (String.eqb_spec (currentInput c) "0") as [Heq | Hneq].
    + rewrite Heq in Hlen. vm_compute in Hlen. contradiction Hlen; reflexivity.
    + cbn [andb negb].
      assert (Hfull : (len (currentInput c) <? 12) = false)
        by (apply Z.ltb_ge; exact Hlen).
      rewrite Hfull. reflexivity.
  - intros c Hw Hdot. unfold inputDecimal. rewrite Hw, Hdot. reflexivity.
  - intros c Hw Hcur. unfold inputNumber. rewrite Hw, Hcur. reflexivity.
Qed.

Lemma C3_entry_sequence_witness :
  currentInput (type_keys "0012.5" new_calculator) = "12.5"
  /\ currentInput (type_keys "123456789.12" new_calculator) = "123456789.12"
  /\ currentInput (type_keys "1234567890123" new_calculator)
     = "123456789012"
  /\ currentInput (type_keys "1.2.3" new_calculator) = "1.23".
Proof.
  destruct C3_entry_sequence as (Hseq & Hfive & Hcap & Hdot & Hzero).
  assert (H12 : len "0012.5" <= 12) by (vm_compute; discriminate).
  assert (H12' : len "123456789.12" <= 12) by (vm_compute; discriminate).
  assert (Hd : (count "." "0012.5" <= 1)%nat) by (vm_compute; lia).
  assert (Hd' : (count "." "123456789.12" <= 1)%nat) by (vm_compute; lia).
  destruct (Hseq new_calculator "0012.5" eq_refl eq_refl eq_refl Hd H12)
    as [H1 _].
  destruct (Hseq new_calculator "123456789.12" eq_refl eq_refl eq_refl Hd' H12')
    as [_ H2].
  assert (Hfull : 12 <= len (currentInput (type_keys "123456789012" new_calculator)))
    by (vm_compute; discriminate).
  pose proof (Hcap (type_keys "123456789012" new_calculator) "3"
                eq_refl Hfull) as H3.
  pose proof (Hdot (type_keys "1.2" new_calculator) eq_refl eq_refl) as H4.
  pose proof (Hfive new_calculator eq_refl eq_refl) as H5.
  pose proof (Hzero new_calculator eq_refl eq_refl) as H6.
  repeat apply conj.
  - rewrite H1. reflexivity.
  - apply H2. reflexivity.
  - change (type_keys "1234567890123" new_calculator)
      with (inputNumber "3" (type_keys "123456789012" new_calculator)).
    rewrite H3. reflexivity.
  - change (type_keys "1.2.3" new_calculator)
      with (inputNumber "3" (inputDecimal (type_keys "1.2" new_calculator))).
    rewrite H4. reflexivity.
Defined.

(** The claim as it was stated does not hold of a sequence that begins
    with the decimal point.  The keys [.5] are two characters with one
    decimal point, typed on the entry ["0"] of a new calculator with
    the flag down, and they leave ["0.5"]: [inputDecimal] appends the
    point to the ["0"] that is there.  That is not the sequence
    [".5"], which has no leading zero to collapse. *)
Lemma C3_leading_point_counterexample :
  let s := ".5" in
  forallb entry_char (list_ascii_of_string s) = true
  /\ (count "." s <= 1)%nat
  /\ len s <= 12
  /\ currentInput new_calculator = "0"
  /\ waitingForNewInput new_calculator = false
  /\ collapse s = s
  /\ currentInput (type_keys s new_calculator) = "0.5"
  /\ currentInput (type_keys s new_calculator) <> s.
Proof.
  cbv zeta.
  repeat apply conj;
    first [ vm_compute; reflexivity
          | vm_compute; discriminate
          | simpl; lia ].
Qed.

(* ================================================================= *)
(** ** Formatting of results *)

(** *** The regular expression and the stripping it stands for *)

Lemma strip_trailing_zeros_all_zeros :
  forall s, all_zeros s = true -> strip_trailing_zeros s = "".
Proof.
  induction s as [|a s IH]; simpl; [reflexivity|].
  intro H. apply andb_prop in H. destruct H as [Ha Hs].
  rewrite (IH Hs), Ha. reflexivity.
Qed.

Lemma strip_trailing_zeros_cons_zeros :
  forall a s,
    all_zeros s = true ->
    strip_trailing_zeros (String a s)
    = if Ascii.eqb a "0" then "" else String a "".
Proof.
  intros a s H. cbn [strip_trailing_zeros].
  rewrite (strip_trailing_zeros_all_zeros s H). reflexivity.
Qed.

Lemma strip_trailing_zeros_empty :
  forall s, strip_trailing_zeros s = "" -> all_zeros s = true.
Proof.
  induction s as [|a s IH]; simpl; [reflexivity|].
  destruct (strip_trailing_zeros s) eqn:Hs; [|discriminate].
  destruct (Ascii.eqb a "0"); [|discriminate].
  intros _. apply IH. reflexivity.
Qed.

Lemma string_eqb_cons :
  forall a s t, String.eqb (String a s) (String a t) = String.eqb s t.
Proof. intros. cbn [String.eqb]. rewrite Ascii.eqb_refl. reflexivity. Qed.

Lemma strip_fraction_cons :
  forall a s,
    tail_matches (String a s) = false ->
    strip_fraction (String a s) = String a (strip_fraction s).
Proof.
  intros a s Hno. unfold strip_fraction.
  cbn [strip_trailing_zeros].
  destruct (strip_trailing_zeros s) as [|b t] eqn:Ht.
  - (* what follows [a] is zeros only *)
    pose proof (strip_trailing_zeros_empty s Ht) as Hz.
    cbn [tail_matches zeros_to_end all_zeros] in Hno. rewrite Hz in Hno.
    destruct s as [|b s'].
    + destruct (Ascii.eqb a ".") eqn:Hdot.
      * apply Ascii.eqb_eq in Hdot; subst a. reflexivity.
      * rewrite andb_true_r in Hno. rewrite Hno.
        rewrite String.eqb_refl. reflexivity.
    + destruct (Ascii.eqb a ".") eqn:Hdot.
      * cbn [zeros_to_end] in Hno. congruence.
      * rewrite andb_true_r in Hno. rewrite Hno.
        cbn [String.eqb]. rewrite Ascii.eqb_refl.
        cbn [ends_with_point]. rewrite Hdot. reflexivity.
  - rewrite string_eqb_cons.
    destruct (String.eqb (String b t) s); [reflexivity|].
    change (ends_with_point (String a (String b t)))
      with (ends_with_point (String b t)).
    change (drop_last (String a (String b t)))
      with (String a (drop_last (String b t))).
    destruct (ends_with_point (String b t)); reflexivity.
Qed.

(** What [replace(/\.?0+$/, '')] removes is the trailing zeros and the
    decimal point that they leave at the end. *)
Lemma strip_zeros_regex_spec :
  forall s, strip_zeros_regex s = strip_fraction s.
Proof.
  induction s as [|a s IH]; [reflexivity|].
  cbn [strip_zeros_regex].
  destruct (tail_matches (String a s)) eqn:Hm.
  - cbn [tail_matches] in Hm. unfold strip_fraction.
    destruct (Ascii.eqb a ".") eqn:Hdot.
    + apply Ascii.eqb_eq in Hdot; subst a.
      destruct s as [|b s']; [discriminate|].
      cbn [zeros_to_end] in Hm.
      rewrite (strip_trailing_zeros_cons_zeros _ _ Hm). reflexivity.
    + cbn [zeros_to_end] in Hm.
      rewrite (strip_trailing_zeros_all_zeros _ Hm). reflexivity.
  - rewrite IH. symmetry. apply strip_fraction_cons. exact Hm.
Qed.

(** *** Decimal points in a printed Number *)

Lemma count_substring :
  forall ch s n m, (count ch (substring n m s) <= count ch s)%nat.
Proof.
  intros ch. induction s as [|a s IH]; intros n m.
  - destruct n, m; simpl; lia.
  - destruct n as [|n].
    + destruct m as [|m]; simpl; [lia|].
      specialize (IH O m). lia.
    + simpl. specialize (IH n m). lia.
Qed.

Lemma count_take :
  forall ch n s, count ch s = O -> count ch (take n s) = O.
Proof.
  intros ch n s H. unfold take.
  pose proof (count_substring ch s 0 n). lia.
Qed.

Lemma count_drop :
  forall ch n s, count ch s = O -> count ch (drop n s) = O.
Proof.
  intros ch n s H. unfold drop.
  pose proof (count_substring ch s n (String.length s - n)). lia.
Qed.

Lemma count_repeat0 : forall n, count "." (repeat0 n) = O.
Proof. unfold repeat0. induction n; simpl; auto. Qed.

Lemma count_digits_of : forall n, count "." (digits_of n) = O.
Proof.
  intro n. unfold digits_of, NilZero.string_of_uint.
  assert (H : forall d, count "." (NilEmpty.string_of_uint d) = O)
    by (induction d; simpl; auto).
  destruct (N.to_uint (Z.to_N n)); try apply H. reflexivity.
Qed.

Lemma count_exponent_string : forall e, count "." (exponent_string e) = O.
Proof.
  intro e. unfold exponent_string.
  rewrite count_append, count_digits_of.
  destruct (e <? 0); reflexivity.
Qed.

Lemma count_sign_string : forall s, count "." (sign_string s) = O.
Proof. intros []; reflexivity. Qed.

(** Count the decimal points of a concatenation of such pieces. *)
Ltac count_dots :=
  repeat (rewrite count_append
          || rewrite count_repeat0
          || rewrite count_digits_of
          || rewrite count_exponent_string
          || rewrite count_sign_string).

Lemma count_layout :
  forall ds n k, count "." ds = O -> (count "." (layout ds n k) <= 1)%nat.
Proof.
  intros ds n k Hds. unfold layout.
  repeat match goal with
         | |- context [if ?b then _ else _] => destruct b
         end;
    count_dots;
    rewrite ?(count_take "." _ _ Hds), ?(count_drop "." _ _ Hds), ?Hds;
    simpl; lia.
Qed.

Lemma count_toString : forall x, (count "." (toString x) <= 1)%nat.
Proof.
  intros [s | s | | s m e]; unfold toString.
  - simpl; lia.
  - destruct s; simpl; lia.
  - simpl; lia.
  - destruct (shortest _ _ _ _ _) as [[d n] k].
    rewrite count_append, count_sign_string.
    apply (count_layout (digits_of d) n k), count_digits_of.
Qed.

(** *** [split] and the fractional digits *)

Lemma split_no_separator :
  forall ch s, count ch s = O -> split ch s = [s].
Proof.
  intros ch. induction s as [|a s IH]; simpl; [reflexivity|].
  destruct (Ascii.eqb a ch); [discriminate|].
  intro H. rewrite (IH H). reflexivity.
Qed.

Lemma decimal_places_spec :
  forall s,
    (count "." s <= 1)%nat ->
    (if includes "." s then len (nth 1 (split "." s) "") else 0)
    = fraction_length s.
Proof.
  induction s as [|a s IH]; [reflexivity|].
  cbn [count includes split fraction_length].
  destruct (Ascii.eqb a ".") eqn:Hdot; intro Hcount.
  - cbn [orb]. rewrite split_no_separator by lia. reflexivity.
  - cbn [orb]. rewrite <- IH by (simpl in Hcount; lia).
    destruct (split "." s) as [|seg segs] eqn:Hsplit.
    + destruct s; simpl in Hsplit.
      * discriminate.
      * destruct (Ascii.eqb a0 "."); [discriminate|].
        destruct (split "." s); discriminate.
    + reflexivity.
Qed.

(** C2: [formatResult] is the four-step policy.  A value that is not
    finite gives ["Error"]; a magnitude of 1e12 or more, or of 1e-6 or
    less for a value other than 0, gives exponential notation with 6
    fractional digits; any other value gives its plain decimal string,
    or, when that has more than 8 fractional digits, the value rounded
    to 8 of them with the trailing zeros and a decimal point left bare
    removed; and what exceeds 12 characters after that is replaced by
    exponential notation with 5 fractional digits.  1234567890123 and
    0.0000001234 come out with 6 fractional digits in exponential
    notation, 3.14159265358979 as ["3.14159265"]. *)
Theorem C2_formatResult_policy :
  (forall value : number, formatResult value = format_policy value)
  /\ (let v := of_decimal false 1234567890123 0 in
      formatResult v = toExponential 6 v
      /\ formatResult v = "1.234568e+12")
  /\ (let v := of_decimal false 1234 (-10) in
      formatResult v = toExponential 6 v
      /\ formatResult v = "1.234000e-7")
  /\ formatResult (of_decimal false 314159265358979 (-14)) = "3.14159265".
Proof.
  repeat apply conj.
  - intro value. unfold formatResult, format_policy.
    rewrite !Z.gtb_ltb.
    destruct (negb (isFinite value)); [reflexivity|].
    destruct (ge (abs value) lit_1e12
              || le (abs value) lit_1em6 && negb (strict_eq value zero));
      [reflexivity|].
    rewrite (decimal_places_spec _ (count_toString value)).
    rewrite strip_zeros_regex_spec.
    reflexivity.
  - vm_compute. reflexivity.
  - vm_compute. reflexivity.
  - vm_compute. reflexivity.
  - vm_compute. reflexivity.
  - vm_compute. reflexivity.
Qed.

(* ================================================================= *)
(** ** The length of the entry *)

(** C7: the cap of 12 characters is checked for digits only.  Twelve
    digits and a decimal point typed on a new calculator build an entry
    of 13 characters, although [inputNumber] refuses a thirteenth
    character on the same entry. *)
Theorem C7_decimal_point_exceeds_cap :
  let c := type_keys "123456789012" new_calculator in
  len (currentInput c) = 12
  /\ waitingForNewInput c = false
  /\ currentInput (inputNumber "3" c) = "123456789012"
  /\ currentInput (inputDecimal c) = "123456789012."
  /\ len (currentInput (inputDecimal c)) = 13
  /\ waitingForNewInput (inputDecimal c) = false
  /\ reachable (inputDecimal c).
Proof.
  cbv zeta. repeat apply conj.
  1-6: vm_compute; reflexivity.
  exists (map key (list_ascii_of_string "123456789012.")).
  split; vm_compute; reflexivity.
Qed.

(** In general: a decimal point is appended to an entry under
    construction that has none, whatever its length. *)
Lemma inputDecimal_ignores_cap :
  forall c : calculator,
    waitingForNewInput c = false ->
    includes "." (currentInput c) = false ->
    currentInput (inputDecimal c) = currentInput c ++ "."
    /\ len (currentInput (inputDecimal c)) = len (currentInput c) + 1.
Proof.
  intros c Hw Hdot. unfold inputDecimal. rewrite Hw, Hdot. simpl.
  split; [reflexivity|]. rewrite len_append. reflexivity.
Qed.

(** The entry ["Error"] is reachable: squaring 999999999999 five times
    overflows. *)
Example error_entry_reachable :
  let square c := c |> setOperator multiply |> calculate in
  let c := new_calculator
             |> type_keys "999999999999"
             |> square |> square |> square |> square |> square in
  currentInput c = "Error"
  /\ currentInput (calculatePercentage c) = "Error"
  /\ memory (memoryAdd c) = NaN.
Proof. vm_compute. repeat split. Qed.

(* ================================================================= *)
(** ** What does hold of the entry *)

(** *** Printed Numbers are not empty and have one decimal point at most *)

Lemma append_nonempty_l : forall s t : string, s <> "" -> s ++ t <> "".
Proof. intros [|a s] t H; simpl; congruence. Qed.

Lemma append_nonempty_r : forall s t : string, t <> "" -> s ++ t <> "".
Proof. intros [|a s] t H; simpl; congruence. Qed.

Lemma digits_of_nonempty : forall n, digits_of n <> "".
Proof.
  intro n. unfold digits_of, NilZero.string_of_uint.
  destruct (N.to_uint (Z.to_N n)); simpl; discriminate.
Qed.

Lemma length_append :
  forall s t, String.length (s ++ t) = (String.length s + String.length t)%nat.
Proof. induction s as [|a s IH]; intro t; simpl; auto. Qed.

Lemma length_repeat0 : forall n, String.length (repeat0 n) = n.
Proof. unfold repeat0. induction n; simpl; auto. Qed.

Lemma take_succ_nonempty :
  forall n s, s <> "" -> take (S n) s <> "".
Proof. intros n [|a s] H; [congruence|]. unfold take. simpl. discriminate. Qed.

Lemma toExponential_nonempty : forall fd x, toExponential fd x <> "".
Proof.
  intros fd [s | s | | s m e]; unfold toExponential.
  - unfold exp_digits. apply append_nonempty_r. discriminate.
  - apply append_nonempty_r. discriminate.
  - discriminate.
  - destruct (exp_round fd (fraction_of m e)) as [n e10].
    unfold exp_digits. do 2 apply append_nonempty_r. discriminate.
Qed.

Lemma count_exp_digits :
  forall fd ds e,
    count "." ds = O -> (count "." (exp_digits fd ds e) <= 1)%nat.
Proof.
  intros fd ds e Hds. unfold exp_digits.
  destruct (Nat.eqb fd 0); count_dots;
    rewrite ?(count_take "." _ _ Hds), ?(count_drop "." _ _ Hds), ?Hds;
    simpl; lia.
Qed.

Lemma count_toExponential :
  forall fd x, (count "." (toExponential fd x) <= 1)%nat.
Proof.
  intros fd [s | s | | s m e]; unfold toExponential.
  - apply count_exp_digits, count_repeat0.
  - destruct s; simpl; lia.
  - simpl; lia.
  - destruct (exp_round fd (fraction_of m e)) as [n e10].
    rewrite count_append, count_sign_string.
    apply count_exp_digits, count_digits_of.
Qed.

Lemma layout_nonempty :
  forall ds n k, ds <> "" -> layout ds n k <> "".
Proof.
  intros ds n k Hds. unfold layout.
  repeat match goal with
         | |- context [if ?b then _ else _] => destruct b
         end.
  - apply append_nonempty_l; assumption.
  - do 1 apply append_nonempty_r. discriminate.
  - discriminate.
  - apply append_nonempty_l; assumption.
  - apply append_nonempty_r. discriminate.
Qed.

Lemma toString_nonempty : forall x, toString x <> "".
Proof.
  intros [s | s | | s m e]; unfold toString; try discriminate.
  - apply append_nonempty_r. discriminate.
  - destruct (shortest _ _ _ _ _) as [[d n] k].
    apply append_nonempty_r, layout_nonempty, digits_of_nonempty.
Qed.

(** [n.toFixed(fd)] for [fd > 0]: digits, a decimal point, digits. *)
Lemma fixed_digits_shape :
  forall fd n,
    exists a A B,
      fixed_digits (S fd) n = String a A ++ "." ++ B
      /\ count "." (String a A) = O
      /\ count "." B = O.
Proof.
  intros fd n. unfold fixed_digits. cbn [Nat.eqb].
  set (padded := repeat0 (S (S fd) - String.length (digits_of n))
                 ++ digits_of n).
  assert (Hcount : count "." padded = O)
    by (unfold padded; count_dots; reflexivity).
  assert (Hlen : (S (S fd) <= String.length padded)%nat).
  { unfold padded. rewrite length_append, length_repeat0. lia. }
  destruct (String.length padded - S fd)%nat as [|k] eqn:Hk; [lia|].
  assert (Hne : padded <> "") by (intros Heq; rewrite Heq in Hlen; simpl in Hlen; lia).
  destruct (take (S k) padded) as [|a A] eqn:Htake.
  - exfalso. exact (take_succ_nonempty k padded Hne Htake).
  - exists a, A, (drop (S k) padded). repeat split.
    + rewrite <- Htake. apply count_take, Hcount.
    + apply count_drop, Hcount.
Qed.

Lemma count_fixed_digits :
  forall fd n, (count "." (fixed_digits fd n) <= 1)%nat.
Proof.
  intros [|fd] n.
  - unfold fixed_digits. cbn [Nat.eqb]. count_dots. simpl; lia.
  - destruct (fixed_digits_shape fd n) as (a & A & B & -> & HA & HB).
    rewrite !count_append, HA, HB. simpl; lia.
Qed.

Lemma count_toFixed : forall fd x, (count "." (toFixed fd x) <= 1)%nat.
Proof.
  intros fd [s | s | | s m e]; unfold toFixed.
  - apply count_fixed_digits.
  - apply count_toString.
  - simpl; lia.
  - destruct (le lit_1e21 _); [apply count_toString|].
    rewrite count_append, count_sign_string. apply count_fixed_digits.
Qed.

Lemma count_strip_zeros_regex :
  forall ch s, (count ch (strip_zeros_regex s) <= count ch s)%nat.
Proof.
  intros ch. induction s as [|a s IH]; cbn [strip_zeros_regex].
  - destruct (tail_matches ""); simpl; lia.
  - destruct (tail_matches (String a s)); simpl; lia.
Qed.

Lemma all_zeros_no_point : forall s, all_zeros s = true -> count "." s = O.
Proof.
  induction s as [|a s IH]; simpl; [reflexivity|].
  intro H. apply andb_prop in H. destruct H as [Ha Hs].
  apply Ascii.eqb_eq in Ha; subst a. simpl. auto.
Qed.

(** The pattern does not match at the front of a string that starts
    with a character other than the decimal point and has a decimal
    point further on: something is left of such a string. *)
Lemma strip_zeros_regex_nonempty :
  forall a s,
    Ascii.eqb a "." = false ->
    (1 <= count "." s)%nat ->
    strip_zeros_regex (String a s) <> "".
Proof.
  intros a s Ha Hs. cbn [strip_zeros_regex tail_matches zeros_to_end].
  rewrite Ha.
  destruct (all_zeros (String a s)) eqn:Hz; [|discriminate].
  apply all_zeros_no_point in Hz. simpl in Hz. rewrite Ha in Hz.
  simpl in Hz. lia.
Qed.

(** A magnitude below [1e12] is below [1e21]. *)
Lemma lit_1e12_value : lit_1e12 = S754_finite false 8192000000000000 (-13).
Proof. vm_compute. reflexivity. Qed.

Lemma lit_1e21_value : lit_1e21 = S754_finite false 7629394531250000 17.
Proof. vm_compute. reflexivity. Qed.

Lemma below_1e12_below_1e21 :
  forall x, ge (abs x) lit_1e12 = false -> le lit_1e21 (abs x) = false.
Proof.
  intro x. rewrite lit_1e12_value, lit_1e21_value.
  destruct x as [s | s | | s m e]; try reflexivity.
  - unfold ge, abs. simpl. discriminate.
  - unfold ge, le, abs, SFabs, SFleb. cbn [SFcompare].
    destruct (Z.compare_spec (-13) e); destruct (Z.compare_spec 17 e);
      try reflexivity; try discriminate; try lia.
Qed.

Lemma strip_toFixed_nonempty :
  forall x,
    isFinite x = true ->
    ge (abs x) lit_1e12 = false ->
    strip_zeros_regex (toFixed 8 x) <> "".
Proof.
  intros [s | s | | s m e] Hfin Hsmall; try discriminate Hfin.
  - vm_compute. discriminate.
  - unfold toFixed. rewrite (below_1e12_below_1e21 _ Hsmall).
    destruct (fixed_digits_shape 7
                (round_half_up (scale (fraction_of m e) (Z.of_nat 8))))
      as (a & A & B & Heq & HA & HB).
    rewrite Heq.
    destruct s; cbn [sign_string].
    + change ("-" ++ String a A ++ "." ++ B)
        with (String "-" (String a A ++ "." ++ B)).
      apply strip_zeros_regex_nonempty; [reflexivity|].
      rewrite !count_append. simpl. lia.
    + change ("" ++ String a A ++ "." ++ B)
        with (String a (A ++ "." ++ B)).
      simpl in HA.
      destruct (Ascii.eqb a ".") eqn:Ha; [discriminate|].
      apply strip_zeros_regex_nonempty; [exact Ha|].
      rewrite !count_append. simpl. lia.
Qed.

(** What [formatResult] returns can stand as an entry. *)
Lemma formatResult_entry :
  forall x,
    formatResult x <> "" /\ (count "." (formatResult x) <= 1)%nat.
Proof.
  intro x. unfold formatResult.
  destruct (isFinite x) eqn:Hfin; cbn [negb];
    [|split; [discriminate | simpl; lia]].
  destruct (ge (abs x) lit_1e12) eqn:Hbig; cbn [orb].
  - destruct (len (toExponential 6 x) >? 12);
      split; auto using toExponential_nonempty, count_toExponential.
  - destruct (le (abs x) lit_1em6 && negb (strict_eq x zero)).
    + destruct (len (toExponential 6 x) >? 12);
        split; auto using toExponential_nonempty, count_toExponential.
    + destruct (_ >? 8).
      * destruct (len (strip_zeros_regex (toFixed 8 x)) >? 12);
          split; auto using toExponential_nonempty, count_toExponential,
                            strip_toFixed_nonempty.
        pose proof (count_strip_zeros_regex "." (toFixed 8 x)).
        pose proof (count_toFixed 8 x). lia.
      * destruct (len (toString x) >? 12);
          split; auto using toExponential_nonempty, count_toExponential,
                            toString_nonempty, count_toString.
Qed.

(** *** The invariant of the entry *)

Lemma entry_invariant_same :
  forall c c',
    currentInput c' = currentInput c ->
    waitingForNewInput c' = waitingForNewInput c ->
    entry_invariant c -> entry_invariant c'.
Proof.
  unfold entry_invariant. intros c c' -> ->. auto.
Qed.

Lemma entry_invariant_result :
  forall c' x,
    currentInput c' = formatResult x ->
    waitingForNewInput c' = true ->
    entry_invariant c'.
Proof.
  unfold entry_invariant. intros c' x -> ->.
  destruct (formatResult_entry x) as [Hne Hdots].
  repeat split; auto. discriminate.
Qed.

Lemma entry_invariant_built :
  forall c' s,
    currentInput c' = s ->
    s <> "" ->
    len s <= 12 + Z.of_nat (count "." s) ->
    (count "." s <= 1)%nat ->
    entry_invariant c'.
Proof. unfold entry_invariant. intros c' s -> Hne Hlen Hdots. auto. Qed.

Lemma digit_not_point : forall d, is_digit d = true -> Ascii.eqb d "." = false.
Proof.
  intros d Hd. destruct (Ascii.eqb_spec d "."); [subst d; discriminate | reflexivity].
Qed.

Lemma inputNumber_entry_invariant :
  forall d c,
    is_digit d = true ->
    entry_invariant c -> entry_invariant (inputNumber (String d "") c).
Proof.
  intros d c Hd Hinv. pose proof Hinv as (Hne & Hdots & Hlen).
  pose proof (digit_not_point d Hd) as Hnp.
  assert (Hfresh : forall c', currentInput c' = String d "" -> entry_invariant c').
  { intros c' Hc'. apply (entry_invariant_built c' _ Hc'); simpl;
      rewrite ?Hnp; simpl; try discriminate; try lia. }
  unfold inputNumber.
  destruct (waitingForNewInput c) eqn:Hw.
  - apply Hfresh. reflexivity.
  - destruct (String.eqb (currentInput c) "0" && negb (String.eqb (String d "") "0")).
    + apply Hfresh. reflexivity.
    + destruct (negb (String.eqb (currentInput c) "0")).
      * destruct (len (currentInput c) <? 12) eqn:Hroom.
        -- apply Z.ltb_lt in Hroom.
           apply (entry_invariant_built _ (currentInput c ++ String d ""));
             [reflexivity | | | ].
           ++ apply append_nonempty_l; assumption.
           ++ rewrite len_append, count_append, len_String.
              change (len "") with 0. cbn [count]. rewrite Hnp. lia.
           ++ rewrite count_append. simpl. rewrite Hnp. lia.
        -- apply (entry_invariant_same c);
             [reflexivity | reflexivity | exact Hinv].
      * apply (entry_invariant_same c);
          [reflexivity | reflexivity | exact Hinv].
Qed.

Lemma inputDecimal_entry_invariant :
  forall c, entry_invariant c -> entry_invariant (inputDecimal c).
Proof.
  intros c Hinv. pose proof Hinv as (Hne & Hdots & Hlen).
  unfold inputDecimal.
  destruct (waitingForNewInput c) eqn:Hw.
  - apply (entry_invariant_built _ "0."); simpl;
      try reflexivity; try discriminate; try lia.
  - rewrite includes_count.
    destruct (Nat.eqb_spec (count "." (currentInput c)) 0) as [Hzero | Hsome];
      cbn [negb].
    + apply (entry_invariant_built _ (currentInput c ++ "."));
        [reflexivity | | | ].
      * apply append_nonempty_l; assumption.
      * rewrite len_append, count_append, Hzero, len_String.
        specialize (Hlen eq_refl). rewrite Hzero in Hlen.
        change (len "") with 0. cbn [count Ascii.eqb]. simpl. lia.
      * rewrite count_append, Hzero. simpl. lia.
    + apply (entry_invariant_same c);
        [reflexivity | reflexivity | exact Hinv].
Qed.

Lemma calculate_entry_invariant :
  forall c, entry_invariant c -> entry_invariant (calculate c).
Proof.
  intros c Hinv. unfold calculate.
  destruct (operator c) as [o|]; [|assumption].
  destruct (previousInput c) as [p|]; [|assumption].
  destruct (compute o _ _) as [result | message].
  - apply (entry_invariant_result _ result); reflexivity.
  - apply (entry_invariant_same c); [reflexivity | reflexivity | assumption].
Qed.

Lemma setOperator_entry_invariant :
  forall o c, entry_invariant c -> entry_invariant (setOperator o c).
Proof.
  intros o c Hinv. unfold setOperator.
  set (c1 := match operator c with
             | Some _ => if negb (waitingForNewInput c) then calculate c else c
             | None => c
             end).
  assert (H1 : entry_invariant c1).
  { unfold c1. destruct (operator c); [|assumption].
    destruct (negb (waitingForNewInput c));
      [apply calculate_entry_invariant|]; assumption. }
  destruct H1 as (Hne & Hdots & _).
  repeat split; simpl; auto. discriminate.
Qed.

(** Every event that the page delivers keeps the invariant. *)
Lemma step_entry_invariant :
  forall e c,
    event_ok e = true -> entry_invariant c -> entry_invariant (step e c).
Proof.
  intros e c Hok Hinv.
  destruct e as [number | a | i].
  - destruct number as [|d [|d' r]]; try discriminate Hok.
    apply inputNumber_entry_invariant; assumption.
  - destruct a; unfold step, handleAction.
    + apply (entry_invariant_built _ "0"); simpl;
        try reflexivity; try discriminate; try lia.
    + apply inputDecimal_entry_invariant; assumption.
    + apply calculate_entry_invariant; assumption.
    + apply setOperator_entry_invariant; assumption.
    + apply (entry_invariant_result
               _ (div (parseFloat (currentInput c)) lit_100)); reflexivity.
    + unfold calculateSquareRoot. destruct (lt _ _).
      * apply (entry_invariant_same c); [reflexivity | reflexivity | assumption].
      * apply (entry_invariant_result
                 _ (sqrt (parseFloat (currentInput c)))); reflexivity.
    + apply (entry_invariant_same c); [reflexivity | reflexivity | assumption].
    + apply (entry_invariant_result _ (memory c)); reflexivity.
    + apply (entry_invariant_same c); [reflexivity | reflexivity | assumption].
    + apply (entry_invariant_same c); [reflexivity | reflexivity | assumption].
  - unfold step.
    destruct (nth_error (timers c) i) as [[delay cb]|]; [|assumption].
    destruct cb.
    + apply (entry_invariant_built _ "0"); simpl;
        try reflexivity; try discriminate; try lia.
    + apply (entry_invariant_same c); [reflexivity | reflexivity | assumption].
Qed.

Lemma run_entry_invariant :
  forall es c,
    forallb event_ok es = true ->
    entry_invariant c -> entry_invariant (run es c).
Proof.
  induction es as [|e es IH]; intros c Hok Hinv; [exact Hinv|].
  cbn [forallb] in Hok. apply andb_prop in Hok. destruct Hok as [He Hes].
  unfold run. cbn [fold_left]. apply IH; [exact Hes|].
  apply step_entry_invariant; assumption.
Qed.

(** In every reachable state the entry is not empty and has at most one
    decimal point; while it is under construction it has at most 12
    characters besides the decimal point, 13 in all. *)
Lemma reachable_entry_invariant :
  forall c,
    reachable c ->
    currentInput c <> ""
    /\ (count "." (currentInput c) <= 1)%nat
    /\ (waitingForNewInput c = false -> len (currentInput c) <= 13).
Proof.
  intros c (es & Hok & ->).
  assert (Hnew : entry_invariant new_calculator).
  { apply (entry_invariant_built _ "0"); simpl;
      try reflexivity; try discriminate; try lia. }
  destruct (run_entry_invariant es new_calculator Hok Hnew)
    as (Hne & Hdots & Hlen).
  repeat split; auto.
  intro Hw. specialize (Hlen Hw). lia.
Qed.

(** *** Operator and operand are pending together *)

Lemma step_pending_pair :
  forall e c,
    (operator c = None <-> previousInput c = None) ->
    (operator (step e c) = None <-> previousInput (step e c) = None).
Proof.
  intros e c Hpair.
  assert (Hcalc : operator (calculate c) = None
                  <-> previousInput (calculate c) = None).
  { unfold calculate.
    destruct (operator c) as [o|] eqn:Hop; [|rewrite Hop; exact Hpair].
    destruct (previousInput c) as [p|] eqn:Hprev;
      [|rewrite Hop, Hprev; exact Hpair].
    destruct (compute o _ _); simpl; [tauto|].
    rewrite Hop, Hprev. exact Hpair. }
  destruct e as [number | a | i].
  - unfold step, inputNumber, updateDisplay.
    repeat match goal with |- context [if ?b then _ else _] => destruct b end;
      exact Hpair.
  - destruct a; unfold step, handleAction; try exact Hpair; try exact Hcalc.
    + simpl; tauto.
    + unfold inputDecimal, updateDisplay.
      repeat match goal with |- context [if ?b then _ else _] => destruct b end;
        exact Hpair.
    + unfold setOperator. simpl. split; discriminate.
    + unfold calculateSquareRoot. destruct (lt _ _); exact Hpair.
  - unfold step.
    destruct (nth_error (timers c) i) as [[delay cb]|]; [|exact Hpair].
    destruct cb; simpl; [tauto | exact Hpair].
Qed.

(** In every reachable state an operator is pending exactly when an
    operand is. *)
Lemma reachable_pending_pair :
  forall c,
    reachable c -> (operator c = None <-> previousInput c = None).
Proof.
  intros c (es & _ & ->).
  assert (H : forall es c0,
             (operator c0 = None <-> previousInput c0 = None) ->
             (operator (run es c0) = None
              <-> previousInput (run es c0) = None)).
  { clear es. induction es as [|e es IH]; intros c0 H0; [exact H0|].
    unfold run. cbn [fold_left]. apply IH, step_pending_pair, H0. }
  apply H. simpl; tauto.
Qed.

(* ================================================================= *)
(** ** Further properties of the handlers *)

Import Page.

Lemma reachable_entry_invariant_witness :
  let c := type_keys "12.5" new_calculator |> setOperator add in
  currentInput c <> ""
  /\ (count "." (currentInput c) <= 1)%nat
  /\ (waitingForNewInput c = false -> len (currentInput c) <= 13).
Proof.
  cbv zeta. apply reachable_entry_invariant.
  exists (map key (list_ascii_of_string "12.5") ++ [Action (a_operator add)])%list.
  split; vm_compute; reflexivity.
Defined.

Lemma reachable_pending_pair_witness :
  let c := type_keys "12.5" new_calculator |> setOperator add in
  operator c = None <-> previousInput c = None.
Proof.
  cbv zeta. apply reachable_pending_pair.
  exists (map key (list_ascii_of_string "12.5") ++ [Action (a_operator add)])%list.
  split; vm_compute; reflexivity.
Defined.

(** *** Typing after a result *)

(** A key leaves everything but the entry, the flag and the display as
    it was, and the flag down. *)
Lemma key_frame :
  forall ch c,
    waitingForNewInput (step (key ch) c) = false
    /\ operator (step (key ch) c) = operator c
    /\ previousInput (step (key ch) c) = previousInput c
    /\ memory (step (key ch) c) = memory c
    /\ timers (step (key ch) c) = timers c
    /\ operationDisplay (step (key ch) c) = operationDisplay c.
Proof.
  intros ch c. unfold key.
  destruct (Ascii.eqb ch ".").
  - unfold step, handleAction, inputDecimal, updateDisplay.
    destruct (waitingForNewInput c) eqn:Hw; simpl; [tauto|].
    destruct (negb _); simpl; rewrite ?Hw; tauto.
  - unfold step, inputNumber, updateDisplay.
    destruct (waitingForNewInput c) eqn:Hw; simpl; [tauto|].
    repeat match goal with |- context [if ?b then _ else _] => destruct b end;
      simpl; rewrite ?Hw; tauto.
Qed.

Lemma type_keys_frame :
  forall s c,
    operator (type_keys s c) = operator c
    /\ previousInput (type_keys s c) = previousInput c
    /\ memory (type_keys s c) = memory c
    /\ timers (type_keys s c) = timers c
    /\ operationDisplay (type_keys s c) = operationDisplay c
    /\ (waitingForNewInput c = false \/ s <> "" ->
        waitingForNewInput (type_keys s c) = false).
Proof.
  induction s as [|ch s IH]; intro c.
  - rewrite type_keys_nil. repeat split. intros [H | H]; congruence.
  - rewrite type_keys_cons.
    destruct (key_frame ch c) as (Hw & Ho & Hp & Hm & Ht & Hd).
    destruct (IH (step (key ch) c)) as (Ho' & Hp' & Hm' & Ht' & Hd' & Hw').
    rewrite Ho', Hp', Hm', Ht', Hd'. repeat split; auto.
Qed.


(** Keys typed while the fresh-entry flag is up. *)
Lemma type_keys_fresh :
  forall s c,
    waitingForNewInput c = true ->
    valid_entry s = true ->
    (count "." s <= 1)%nat ->
    len s <= 12 ->
    currentInput (type_keys s c) = collapse s.
Proof.
  intros s c Hw Hvalid Hdots Hlen.
  rewrite <- (collapse_keyed_entry s Hvalid).
  assert (Hklen : len (keyed_entry s) <= 12).
  { rewrite (collapse_keyed_entry s Hvalid).
    pose proof (len_collapse s). lia. }
  unfold valid_entry in Hvalid.
  destruct s as [|d r]; [discriminate|].
  apply andb_prop in Hvalid. destruct Hvalid as [Hd _].
  cbn [starts_with_digit] in Hd.
  pose proof (digit_not_point d Hd) as Hnp.
  rewrite type_keys_cons.
  assert (Hstep : currentInput (step (key d) c) = String d ""
                  /\ waitingForNewInput (step (key d) c) = false).
  { unfold key. rewrite Hnp. unfold step, inputNumber. rewrite Hw.
    split; reflexivity. }
  destruct Hstep as [Hcur Hw'].
  cbn [count] in Hdots. rewrite Hnp in Hdots.
  cbn [keyed_entry] in Hklen |- *. rewrite Hnp in Hklen |- *.
  destruct (Ascii.eqb d "0") eqn:Hzero.
  - apply Ascii.eqb_eq in Hzero; subst d.
    apply type_keys_from_zero; auto.
  - rewrite type_keys_appends; rewrite ?Hcur;
      [reflexivity | exact Hw' | | discriminate | | ].
    + intros [= ->]. discriminate.
    + simpl. rewrite Hnp. exact Hdots.
    + intros _ _ _. rewrite !len_String in *.
      change (len "") with 0. lia.
Qed.

(** The entry a valid sequence leaves, from either start: an entry
    ["0"] with the flag down, or any entry with the flag up. *)
Lemma type_keys_entry :
  forall s c,
    (waitingForNewInput c = true
     \/ (waitingForNewInput c = false /\ currentInput c = "0")) ->
    valid_entry s = true ->
    (count "." s <= 1)%nat ->
    len s <= 12 ->
    currentInput (type_keys s c) = collapse s
    /\ waitingForNewInput (type_keys s c) = false.
Proof.
  intros s c Hstart Hvalid Hdots Hlen.
  split.
  - destruct Hstart as [Hw | [Hw Hcur]].
    + apply type_keys_fresh; assumption.
    + rewrite <- (collapse_keyed_entry s Hvalid).
      apply type_keys_from_zero; auto.
      rewrite (collapse_keyed_entry s Hvalid).
      pose proof (len_collapse s). lia.
  - apply type_keys_frame. right.
    destruct s; [discriminate Hvalid | discriminate].
Qed.

(** [setOperator] when nothing is to be evaluated first. *)
Lemma setOperator_idle :
  forall o c,
    operator c = None \/ waitingForNewInput c = true ->
    let c' := setOperator o c in
    operator c' = Some o
    /\ previousInput c' = Some (currentInput c)
    /\ waitingForNewInput c' = true
    /\ currentInput c' = currentInput c
    /\ memory c' = memory c
    /\ timers c' = timers c
    /\ display c' = display c
    /\ displayError c' = displayError c
    /\ operationDisplay c' = currentInput c ++ " " ++ operatorSymbols o.
Proof.
  intros o c Hidle; cbv zeta. unfold setOperator.
  destruct Hidle as [Hop | Hw].
  - rewrite Hop. simpl. repeat split.
  - rewrite Hw. destruct (operator c); simpl; repeat split.
Qed.

(** [setOperator] when the pending computation has a result. *)
Lemma setOperator_evaluates :
  forall (c : calculator) (o o' : binop) (p : string),
    operator c = Some o' ->
    previousInput c = Some p ->
    waitingForNewInput c = false ->
    (o' = divide -> strict_eq (parseFloat (currentInput c)) zero = false) ->
    let r := formatResult
               (arithmetic o' (parseFloat p) (parseFloat (currentInput c))) in
    let c' := setOperator o c in
    operator c' = Some o
    /\ previousInput c' = Some r
    /\ waitingForNewInput c' = true
    /\ currentInput c' = r
    /\ memory c' = memory c.
Proof.
  intros c o o' p Hop Hprev Hwait Hdiv; cbv zeta.
  destruct (calculate_result c o' p Hop Hprev Hdiv)
    as (Hcur & _ & _ & _ & _ & _ & Hmem & _).
  unfold setOperator. rewrite Hop, Hwait. cbn [negb].
  unfold updateOperatorButtons; simpl.
  rewrite Hcur, Hmem. repeat split.
Qed.



(** A whole calculation, as typed: with no operator pending, and the
    entry cleared or the flag up, the keys [a], an operator, [b] and
    [=] display the formatted result of the operator on the two Numbers
    that [a] and [b] parse to (leading zeros collapsed), unless the
    operator is [divide] and [b] parses to zero. *)
Theorem typed_calculation :
  forall (c : calculator) (a b : string) (o : binop),
    operator c = None ->
    (waitingForNewInput c = true
     \/ (waitingForNewInput c = false /\ currentInput c = "0")) ->
    valid_entry a = true -> (count "." a <= 1)%nat -> len a <= 12 ->
    valid_entry b = true -> (count "." b <= 1)%nat -> len b <= 12 ->
    (o = divide -> strict_eq (parseFloat (collapse b)) zero = false) ->
    let c' := c |> type_keys a |> setOperator o |> type_keys b |> calculate in
    currentInput c'
    = formatResult
        (arithmetic o (parseFloat (collapse a)) (parseFloat (collapse b)))
    /\ display c' = currentInput c'
    /\ displayError c' = false
    /\ operationDisplay c'
       = collapse a ++ " " ++ operatorSymbols o ++ " " ++ collapse b ++ " ="
    /\ operator c' = None
    /\ previousInput c' = None
    /\ waitingForNewInput c' = true
    /\ memory c' = memory c.
Proof.
  intros c a b o Hop Hstart Ha Hda Hla Hb Hdb Hlb Hdiv; cbv zeta.
  destruct (type_keys_entry a c Hstart Ha Hda Hla) as [Hcur1 Hw1].
  destruct (type_keys_frame a c) as (Ho1 & _ & Hm1 & _).
  rewrite Hop in Ho1.
  destruct (setOperator_idle o (type_keys a c) (or_introl Ho1))
    as (Ho2 & Hp2 & Hw2 & _ & Hm2 & _).
  rewrite Hcur1 in Hp2.
  set (c2 := setOperator o (type_keys a c)) in *.
  destruct (type_keys_entry b c2 (or_introl Hw2) Hb Hdb Hlb) as [Hcur3 Hw3].
  destruct (type_keys_frame b c2) as (Ho3 & Hp3 & Hm3 & _).
  rewrite Ho2 in Ho3. rewrite Hp2 in Hp3.
  set (c3 := type_keys b c2) in *.
  assert (Hdiv3 : o = divide ->
                  strict_eq (parseFloat (currentInput c3)) zero = false)
    by (rewrite Hcur3; exact Hdiv).
  destruct (calculate_result c3 o (collapse a) Ho3 Hp3 Hdiv3)
    as (H1 & H2 & H3 & H4 & H5 & H6 & H7 & H8).
  rewrite Hcur3 in H1, H2, H6.
  rewrite H2, H1, H6, H7, Hm3, Hm2, Hm1.
  repeat split; auto.
Qed.

Lemma typed_calculation_witness :
  let c := new_calculator
             |> type_keys "012.5" |> setOperator divide
             |> type_keys "4" |> calculate in
  currentInput c = "3.125" /\ operationDisplay c = "12.5 ÷ 4 =".
Proof.
  cbv zeta.
  assert (Hda : (count "." "012.5" <= 1)%nat) by (vm_compute; lia).
  assert (Hla : len "012.5" <= 12) by (vm_compute; discriminate).
  assert (Hdb : (count "." "4" <= 1)%nat) by (vm_compute; lia).
  assert (Hlb : len "4" <= 12) by (vm_compute; discriminate).
  assert (Hnz : divide = divide ->
                strict_eq (parseFloat (collapse "4")) zero = false)
    by (intros _; vm_compute; reflexivity).
  destruct (typed_calculation new_calculator "012.5" "4" divide
              eq_refl (or_intror (conj eq_refl eq_refl))
              eq_refl Hda Hla eq_refl Hdb Hlb Hnz)
    as (H1 & _ & _ & H2 & _).
  rewrite H1, H2. vm_compute. split; reflexivity.
Defined.

(** A chain passes through the display: when a second operator
    evaluates a pending computation, the left operand of what follows
    is the Number parsed back from the formatted result, not the result
    itself.  Keys [1 ÷ 3 × 3 =] display 0.99999999, although the
    product of the quotient by 3 is formatted as 1. *)
Theorem chain_through_display :
  (forall (c : calculator) (o1 o2 : binop) (p d : string),
      operator c = Some o1 ->
      previousInput c = Some p ->
      waitingForNewInput c = false ->
      (o1 = divide -> strict_eq (parseFloat (currentInput c)) zero = false) ->
      valid_entry d = true -> (count "." d <= 1)%nat -> len d <= 12 ->
      (o2 = divide -> strict_eq (parseFloat (collapse d)) zero = false) ->
      let r := formatResult
                 (arithmetic o1 (parseFloat p) (parseFloat (currentInput c))) in
      currentInput (c |> setOperator o2 |> type_keys d |> calculate)
      = formatResult
          (arithmetic o2 (parseFloat r) (parseFloat (collapse d))))
  /\ (let third := JSNumber.div (parseFloat "1") (parseFloat "3") in
      currentInput (new_calculator
                      |> type_keys "1" |> setOperator divide
                      |> type_keys "3" |> setOperator multiply
                      |> type_keys "3" |> calculate) = "0.99999999"
      /\ formatResult third = "0.33333333"
      /\ formatResult (mul third (parseFloat "3")) = "1").
Proof.
  split.
  - intros c o1 o2 p d Hop Hprev Hw Hdiv1 Hd Hdd Hld Hdiv2; cbv zeta.
    destruct (setOperator_evaluates c o2 o1 p Hop Hprev Hw Hdiv1)
      as (Ho2 & Hp2 & Hw2 & _).
    set (c2 := setOperator o2 c) in *.
    destruct (type_keys_entry d c2 (or_introl Hw2) Hd Hdd Hld) as [Hcur3 _].
    destruct (type_keys_frame d c2) as (Ho3 & Hp3 & _).
    rewrite Ho2 in Ho3. rewrite Hp2 in Hp3.
    set (c3 := type_keys d c2) in *.
    assert (Hdiv3 : o2 = divide ->
                    strict_eq (parseFloat (currentInput c3)) zero = false)
      by (rewrite Hcur3; exact Hdiv2).
    destruct (calculate_result c3 o2 _ Ho3 Hp3 Hdiv3) as (H1 & _).
    rewrite H1, Hcur3. reflexivity.
  - vm_compute. repeat split.
Qed.

Lemma chain_through_display_witness :
  currentInput (new_calculator
                  |> type_keys "2" |> setOperator divide
                  |> type_keys "3" |> setOperator multiply
                  |> type_keys "6" |> calculate) = "4.00000002".
Proof.
  destruct chain_through_display as [Hchain _].
  assert (Hn1 : divide = divide ->
                strict_eq
                  (parseFloat
                     (currentInput
                        (new_calculator
                           |> type_keys "2" |> setOperator divide
                           |> type_keys "3"))) zero = false)
    by (intros _; vm_compute; reflexivity).
  assert (Hn2 : multiply = divide ->
                strict_eq (parseFloat (collapse "6")) zero = false)
    by discriminate.
  assert (Hdd : (count "." "6" <= 1)%nat) by (vm_compute; lia).
  assert (Hld : len "6" <= 12) by (vm_compute; discriminate).
  pose proof (Hchain (new_calculator
                        |> type_keys "2" |> setOperator divide
                        |> type_keys "3")
                divide multiply "2" "6"
                eq_refl eq_refl eq_refl Hn1 eq_refl Hdd Hld Hn2) as H.
  cbv zeta in H. rewrite H. vm_compute. reflexivity.
Defined.

(** *** Repeated keys *)

(** [=] pressed again changes nothing: without a pending operator or
    operand [calculate] does nothing, and after a result nothing is
    pending.  A division by zero is the exception: every [=] shows the
    error again and schedules one more [clear]. *)
Theorem equals_twice :
  (forall c : calculator,
      operator c = None \/ previousInput c = None -> calculate c = c)
  /\ (forall c : calculator,
         (operator c = Some divide ->
          strict_eq (parseFloat (currentInput c)) zero = false) ->
         calculate (calculate c) = calculate c)
  /\ (forall (c : calculator) (p : string),
         operator c = Some divide ->
         previousInput c = Some p ->
         strict_eq (parseFloat (currentInput c)) zero = true ->
         timers (calculate (calculate c))
         = (timers c ++ [(2000, CallClear); (2000, CallClear)])%list).
Proof.
  assert (Hidle : forall c : calculator,
             operator c = None \/ previousInput c = None -> calculate c = c).
  { intros c [H | H]; unfold calculate; rewrite H; [reflexivity|].
    destruct (operator c); reflexivity. }
  split; [exact Hidle | split].
  - intros c Hdiv.
    destruct (operator c) as [o|] eqn:Hop;
      [|rewrite (Hidle c (or_introl Hop)); apply Hidle; auto].
    destruct (previousInput c) as [p|] eqn:Hprev;
      [|rewrite (Hidle c (or_intror Hprev)); apply Hidle; auto].
    assert (Hdiv' : o = divide ->
                    strict_eq (parseFloat (currentInput c)) zero = false)
      by (intros ->; auto).
    apply Hidle. left.
    destruct (calculate_result c o p Hop Hprev Hdiv') as (_ & _ & H & _).
    exact H.
  - intros c p Hop Hprev Hzero.
    rewrite (calculate_divide_by_zero c p Hop Hprev Hzero).
    rewrite (calculate_divide_by_zero (showError "Cannot divide by zero" c) p
               Hop Hprev Hzero).
    unfold showError; simpl. rewrite <- app_assoc. reflexivity.
Qed.

Lemma equals_twice_witness :
  let c := new_calculator
             |> type_keys "9" |> setOperator subtract |> type_keys "4" in
  calculate (calculate c) = calculate c
  /\ currentInput (calculate c) = "5"
  /\ timers (calculate (calculate
                          (new_calculator
                             |> type_keys "9" |> setOperator divide
                             |> type_keys "0")))
     = [(2000, CallClear); (2000, CallClear)].
Proof.
  cbv zeta.
  destruct equals_twice as (_ & Hidem & Herr).
  assert (Hnd : operator (new_calculator
                            |> type_keys "9" |> setOperator subtract
                            |> type_keys "4") = Some divide ->
                strict_eq
                  (parseFloat
                     (currentInput
                        (new_calculator
                           |> type_keys "9" |> setOperator subtract
                           |> type_keys "4"))) zero = false)
    by (intros _; vm_compute; reflexivity).
  split; [exact (Hidem _ Hnd) | split].
  - vm_compute. reflexivity.
  - rewrite (Herr (new_calculator
                     |> type_keys "9" |> setOperator divide |> type_keys "0")
               "9" eq_refl eq_refl eq_refl).
    reflexivity.
Defined.

(** Of two operators pressed one after the other the second one
    counts: the state is the one that the second alone would have
    left. *)
Theorem operator_replaced :
  forall (o1 o2 : binop) (c : calculator),
    setOperator o2 (setOperator o1 c) = setOperator o2 c.
Proof.
  intros o1 o2 c. unfold setOperator at 1.
  assert (Hop : operator (setOperator o1 c) = Some o1) by reflexivity.
  assert (Hw : waitingForNewInput (setOperator o1 c) = true) by reflexivity.
  rewrite Hop, Hw. cbn [negb].
  unfold setOperator.
  destruct (match operator c with
            | Some _ => if negb (waitingForNewInput c) then calculate c else c
            | None => c
            end); reflexivity.
Qed.

(** A percentage is the hundredth of the entry alone.  Taken while an
    operator is pending, [=] then applies the operator to the pending
    operand and the Number parsed back from the formatted hundredth:
    [200 + 10 % =] displays 200.1. *)
Theorem percentage_in_chain :
  (forall (c : calculator) (o : binop) (p : string),
      operator c = Some o ->
      previousInput c = Some p ->
      let h := formatResult (div (parseFloat (currentInput c)) lit_100) in
      (o = divide -> strict_eq (parseFloat h) zero = false) ->
      currentInput (calculate (calculatePercentage c))
      = formatResult (arithmetic o (parseFloat p) (parseFloat h)))
  /\ currentInput (new_calculator
                     |> type_keys "200" |> setOperator add
                     |> type_keys "10" |> calculatePercentage
                     |> calculate) = "200.1".
Proof.
  split.
  - intros c o p Hop Hprev h Hdiv.
    assert (Hcur : currentInput (calculatePercentage c) = h) by reflexivity.
    assert (Hdiv' : o = divide ->
                    strict_eq
                      (parseFloat (currentInput (calculatePercentage c)))
                      zero = false)
      by (rewrite Hcur; exact Hdiv).
    destruct (calculate_result (calculatePercentage c) o p Hop Hprev Hdiv')
      as (H & _).
    rewrite H, Hcur. reflexivity.
  - vm_compute. reflexivity.
Qed.

Lemma percentage_in_chain_witness :
  currentInput (new_calculator
                  |> type_keys "50" |> setOperator multiply
                  |> type_keys "20" |> calculatePercentage
                  |> calculate) = "10".
Proof.
  destruct percentage_in_chain as [Hgen _].
  assert (Hnd : multiply = divide ->
                strict_eq
                  (parseFloat
                     (formatResult
                        (div (parseFloat
                                (currentInput
                                   (new_calculator
                                      |> type_keys "50" |> setOperator multiply
                                      |> type_keys "20")))
                           lit_100))) zero = false)
    by discriminate.
  rewrite (Hgen (new_calculator
                   |> type_keys "50" |> setOperator multiply
                   |> type_keys "20")
             multiply "50" eq_refl eq_refl Hnd).
  vm_compute. reflexivity.
Defined.

(** *** The memory register *)

Lemma formatResult_add_zero :
  forall x, formatResult (JSNumber.add zero x) = formatResult x.
Proof.
  intros [[] | s | | s m e]; reflexivity.
Qed.

(** The memory actions write the register, the trace and the timer
    queue only; [memoryRecall] in addition stores the formatted
    register as the entry with the flag up.  [MC M+ MR] shows the entry
    as [formatResult] prints the Number it parses to, and [MC MR]
    shows 0. *)
Theorem memory_actions :
  (forall (a : action) (c : calculator),
      a = a_memory_clear \/ a = a_memory_add \/ a = a_memory_subtract ->
      let c' := handleAction a c in
      currentInput c' = currentInput c
      /\ previousInput c' = previousInput c
      /\ operator c' = operator c
      /\ waitingForNewInput c' = waitingForNewInput c
      /\ display c' = display c
      /\ displayError c' = displayError c
      /\ memory_message a = Some (operationDisplay c')
      /\ timers c'
         = (timers c ++ [(1500, RestoreText (operationDisplay c))])%list)
  /\ (forall c : calculator,
         let c' := memoryRecall c in
         currentInput c' = formatResult (memory c)
         /\ waitingForNewInput c' = true
         /\ memory c' = memory c
         /\ operator c' = operator c
         /\ previousInput c' = previousInput c)
  /\ (forall c : calculator,
         currentInput (c |> memoryClear |> memoryAdd |> memoryRecall)
         = formatResult (parseFloat (currentInput c)))
  /\ (forall c : calculator,
         currentInput (c |> memoryClear |> memoryRecall) = "0").
Proof.
  repeat apply conj.
  - intros a c [-> | [-> | ->]]; cbv zeta; simpl; repeat split.
  - intro c; cbv zeta. simpl. repeat split.
  - intro c.
    change (currentInput (c |> memoryClear |> memoryAdd |> memoryRecall))
      with (formatResult (JSNumber.add zero (parseFloat (currentInput c)))).
    apply formatResult_add_zero.
  - intro c. vm_compute. reflexivity.
Qed.

Lemma memory_actions_witness :
  let c := new_calculator |> type_keys "2.50" in
  currentInput (c |> memoryClear |> memoryAdd |> memoryRecall) = "2.5"
  /\ operationDisplay (handleAction a_memory_add c) = "Added to memory".
Proof.
  cbv zeta.
  destruct memory_actions as (Hframe & _ & Hround & _).
  rewrite Hround.
  destruct (Hframe a_memory_add (new_calculator |> type_keys "2.50")
              (or_intror (or_introl eq_refl)))
    as (_ & _ & _ & _ & _ & _ & Hmsg & _).
  cbn [memory_message] in Hmsg.
  split; [vm_compute; reflexivity | congruence].
Defined.

(** A register that holds NaN holds it until [memoryClear]: no other
    event changes it, [memoryAdd] and [memorySubtract] included, and a
    recall shows ["Error"]. *)
Theorem memory_NaN_sticks :
  forall (e : event) (c : calculator),
    memory c = NaN ->
    e <> Action a_memory_clear ->
    memory (step e c) = NaN
    /\ currentInput (memoryRecall c) = "Error".
Proof.
  intros e c Hnan Hclear. split.
  - destruct e as [number | a | i];
      try (rewrite memory_frame; [exact Hnan | congruence ..]).
    destruct a; try (rewrite memory_frame; [exact Hnan | congruence ..]).
    + simpl. rewrite Hnan. apply add_NaN_l.
    + simpl. rewrite Hnan. apply sub_NaN_l.
  - simpl. rewrite Hnan. reflexivity.
Qed.

Lemma memory_NaN_sticks_witness :
  let square c := c |> setOperator multiply |> calculate in
  let c := new_calculator
             |> type_keys "999999999999"
             |> square |> square |> square |> square |> square
             |> memoryAdd |> clear |> type_keys "7" in
  memory c = NaN
  /\ memory (step (Action a_memory_subtract) c) = NaN
  /\ currentInput (memoryRecall c) = "Error".
Proof.
  cbv zeta.
  assert (Hnan : memory (new_calculator
                           |> type_keys "999999999999"
                           |> (fun c => c |> setOperator multiply |> calculate)
                           |> (fun c => c |> setOperator multiply |> calculate)
                           |> (fun c => c |> setOperator multiply |> calculate)
                           |> (fun c => c |> setOperator multiply |> calculate)
                           |> (fun c => c |> setOperator multiply |> calculate)
                           |> memoryAdd |> clear |> type_keys "7") = NaN)
    by (vm_compute; reflexivity).
  assert (Hne : Action a_memory_subtract <> Action a_memory_clear)
    by discriminate.
  split; [exact Hnan|].
  exact (memory_NaN_sticks (Action a_memory_subtract) _ Hnan Hne).
Defined.

(** *** Timers *)

Lemma step_appends_timers :
  forall e c,
    not_timer e = true ->
    exists new, timers (step e c) = (timers c ++ new)%list.
Proof.
  intros e c Hnt.
  assert (Hcalc : exists new, timers (calculate c) = (timers c ++ new)%list).
  { unfold calculate.
    destruct (operator c); [|exists []; symmetry; apply app_nil_r].
    destruct (previousInput c); [|exists []; symmetry; apply app_nil_r].
    destruct (compute _ _ _).
    - exists []. symmetry. apply app_nil_r.
    - exists [(2000, CallClear)]. reflexivity. }
  destruct e as [number | a | i]; [| |discriminate].
  - exists []. rewrite app_nil_r.
    unfold step, inputNumber, updateDisplay.
    repeat match goal with |- context [if ?b then _ else _] => destruct b end;
      reflexivity.
  - destruct a; unfold step, handleAction;
      try (exists []; rewrite app_nil_r; reflexivity);
      try (eexists; reflexivity).
    + exists []. rewrite app_nil_r. unfold inputDecimal, updateDisplay.
      repeat match goal with |- context [if ?b then _ else _] => destruct b end;
        reflexivity.
    + exact Hcalc.
    + unfold setOperator.
      destruct (operator c);
        [|exists []; symmetry; apply app_nil_r].
      destruct (negb (waitingForNewInput c));
        [exact Hcalc | exists []; symmetry; apply app_nil_r].
    + unfold calculateSquareRoot. destruct (lt _ _).
      * exists [(2000, CallClear)]. reflexivity.
      * exists []. symmetry. apply app_nil_r.
Qed.

Lemma run_appends_timers :
  forall es c,
    forallb not_timer es = true ->
    exists new, timers (run es c) = (timers c ++ new)%list.
Proof.
  induction es as [|e es IH]; intros c Hnt.
  - exists []. symmetry. apply app_nil_r.
  - cbn [forallb] in Hnt. apply andb_prop in Hnt. destruct Hnt as [He Hes].
    unfold run. cbn [fold_left].
    destruct (step_appends_timers e c He) as [new1 H1].
    destruct (IH (step e c) Hes) as [new2 H2].
    exists (new1 ++ new2)%list.
    unfold run in H2. rewrite H2, H1, app_assoc. reflexivity.
Qed.

(** No handler cancels a timer: events other than a timer firing only
    add to the queue.  So a [clear] that an error has scheduled fires
    whatever was done since, and wipes it: the entry is ["0"] again and
    nothing is pending.  After [9 ÷ 0 =] the division is still pending,
    so the keys [7 + 8] make 9 ÷ 7 the pending operand and 8 the entry;
    both are lost when the timer fires. *)
Theorem error_clear_not_cancelled :
  (forall (es : list event) (c : calculator),
      forallb not_timer es = true ->
      exists new, timers (run es c) = (timers c ++ new)%list)
  /\ (forall (es : list event) (c : calculator) (i : nat) (delay : Z),
         forallb not_timer es = true ->
         nth_error (timers c) i = Some (delay, CallClear) ->
         let c' := step (Timer i) (run es c) in
         currentInput c' = "0"
         /\ display c' = "0"
         /\ previousInput c' = None
         /\ operator c' = None
         /\ waitingForNewInput c' = false
         /\ operationDisplay c' = ""
         /\ memory c' = memory (run es c))
  /\ (let c := new_calculator
                 |> type_keys "9" |> setOperator divide |> type_keys "0"
                 |> calculate
                 |> type_keys "7" |> setOperator add |> type_keys "8" in
      currentInput c = "8"
      /\ previousInput c = Some "1.28571429"
      /\ operator c = Some add
      /\ currentInput (step (Timer 0) c) = "0"
      /\ previousInput (step (Timer 0) c) = None).
Proof.
  split; [exact run_appends_timers | split].
  - intros es c i delay Hnt Hi; cbv zeta.
    destruct (run_appends_timers es c Hnt) as [new Hnew].
    assert (Hi' : nth_error (timers (run es c)) i = Some (delay, CallClear)).
    { rewrite Hnew, nth_error_app1; [exact Hi|].
      apply nth_error_Some. rewrite Hi. discriminate. }
    unfold step. rewrite Hi'. simpl. repeat split.
  - vm_compute. repeat split.
Qed.

Lemma error_clear_not_cancelled_witness :
  let c := new_calculator |> type_keys "4" |> setOperator subtract
                          |> type_keys "9" |> calculate
                          |> calculateSquareRoot in
  timers c = [(2000, CallClear)]
  /\ currentInput
       (step (Timer 0)
          (run [Number "6"; Action (a_operator multiply); Number "7"] c))
     = "0".
Proof.
  cbv zeta.
  destruct error_clear_not_cancelled as (_ & Hfire & _).
  split; [vm_compute; reflexivity|].
  destruct (Hfire [Number "6"; Action (a_operator multiply); Number "7"]
              (new_calculator |> type_keys "4" |> setOperator subtract
                              |> type_keys "9" |> calculate
                              |> calculateSquareRoot)
              O 2000 eq_refl eq_refl) as (H & _).
  exact H.
Defined.





(** *** What the display shows *)

Lemma display_invariant_updated :
  forall c',
    displayError c' = false ->
    display c' = currentInput c' ->
    display_invariant c'.
Proof. intros c' He Hd. left. auto. Qed.

Lemma display_invariant_same :
  forall c c',
    display c' = display c ->
    displayError c' = displayError c ->
    currentInput c' = currentInput c ->
    (forall t, In t (timers c) -> In t (timers c')) ->
    display_invariant c -> display_invariant c'.
Proof.
  unfold display_invariant. intros c c' -> -> -> Hts [H | (He & Hm & Ht)].
  - left. exact H.
  - right. auto.
Qed.

Lemma in_remove_timer :
  forall ts i (t u : Z * callback),
    In t ts -> nth_error ts i = Some u -> t <> u ->
    In t (remove_timer i ts).
Proof.
  induction ts as [|a ts IH]; intros i t u Hin Hi Hne; [contradiction|].
  destruct i as [|j]; simpl in *.
  - injection Hi as ->. destruct Hin as [-> | Hin]; [congruence | exact Hin].
  - destruct Hin as [-> | Hin]; [left; reflexivity | right].
    apply (IH j t u); assumption.
Qed.

Lemma calculate_display_invariant :
  forall c, display_invariant c -> display_invariant (calculate c).
Proof.
  intros c Hinv. unfold calculate.
  destruct (operator c) as [o|]; [|exact Hinv].
  destruct (previousInput c) as [p|]; [|exact Hinv].
  destruct (compute o _ _) as [r | message] eqn:Hc.
  - apply display_invariant_updated; reflexivity.
  - apply compute_error in Hc. destruct Hc as (_ & _ & ->).
    right. simpl. repeat split; auto.
    apply in_or_app. right. left. reflexivity.
Qed.

Lemma step_display_invariant :
  forall e c, display_invariant c -> display_invariant (step e c).
Proof.
  intros e c Hinv.
  assert (Hmsg : forall m c0,
             display_invariant c0 ->
             display_invariant (showTemporaryMessage m c0)).
  { intros m c0. apply display_invariant_same; try reflexivity.
    intros t Ht. simpl. apply in_or_app. left. exact Ht. }
  destruct e as [number | a | i].
  - apply display_invariant_updated; reflexivity.
  - destruct a; unfold step, handleAction.
    + apply display_invariant_updated; reflexivity.
    + apply display_invariant_updated; reflexivity.
    + apply calculate_display_invariant, Hinv.
    + unfold setOperator.
      set (c1 := match operator c with
                 | Some _ =>
                     if negb (waitingForNewInput c) then calculate c else c
                 | None => c
                 end).
      assert (H1 : display_invariant c1).
      { unfold c1. destruct (operator c); [|exact Hinv].
        destruct (negb (waitingForNewInput c));
          [apply calculate_display_invariant|]; exact Hinv. }
      revert H1. apply display_invariant_same; try reflexivity. auto.
    + apply display_invariant_updated; reflexivity.
    + unfold calculateSquareRoot. destruct (lt _ _).
      * right. simpl. repeat split; auto.
        apply in_or_app. right. left. reflexivity.
      * apply display_invariant_updated; reflexivity.
    + apply Hmsg. revert Hinv. apply display_invariant_same; auto.
    + apply Hmsg. apply display_invariant_updated; reflexivity.
    + apply Hmsg. revert Hinv. apply display_invariant_same; auto.
    + apply Hmsg. revert Hinv. apply display_invariant_same; auto.
  - unfold step.
    destruct (nth_error (timers c) i) as [[delay cb]|] eqn:Hi; [|exact Hinv].
    destruct cb as [|originalText].
    + apply display_invariant_updated; reflexivity.
    + revert Hinv. unfold display_invariant. simpl.
      intros [H | (He & Hm & Ht)]; [left; exact H | right].
      repeat split; auto.
      apply (in_remove_timer _ i _ (delay, RestoreText originalText));
        [exact Ht | exact Hi | discriminate].
Qed.

(** Whatever events the calculator has been through, the display shows
    the entry, unless the error class is set; then it shows one of the
    two error messages and a [clear] is waiting in the timer queue. *)
Theorem display_shows_entry_or_error :
  forall es : list event, display_invariant (run es new_calculator).
Proof.
  assert (H : forall es c, display_invariant c -> display_invariant (run es c)).
  { induction es as [|e es IH]; intros c Hc; [exact Hc|].
    unfold run. cbn [fold_left]. apply IH, step_display_invariant, Hc. }
  intro es. apply H. left. split; reflexivity.
Qed.

(** *** The highlighted operator button *)

Lemma step_active_button :
  forall e c,
    activeButton c = operator c ->
    activeButton (step e c) = operator (step e c).
Proof.
  intros e c Hinv.
  assert (Hcalc : activeButton (calculate c) = operator (calculate c)).
  { unfold calculate.
    destruct (operator c) as [o|] eqn:Hop; [|rewrite Hop; exact Hinv].
    destruct (previousInput c) as [p|]; [|rewrite Hop; exact Hinv].
    destruct (compute o _ _); simpl; [reflexivity|].
    rewrite Hop. exact Hinv. }
  destruct e as [number | a | i].
  - unfold step, inputNumber, updateDisplay.
    repeat match goal with |- context [if ?b then _ else _] => destruct b end;
      exact Hinv.
  - destruct a; unfold step, handleAction;
      try exact Hinv; try exact Hcalc; try reflexivity.
    + unfold inputDecimal, updateDisplay.
      repeat match goal with |- context [if ?b then _ else _] => destruct b end;
        exact Hinv.
    + unfold calculateSquareRoot. destruct (lt _ _); exact Hinv.
  - unfold step.
    destruct (nth_error (timers c) i) as [[delay cb]|]; [|exact Hinv].
    destruct cb; [reflexivity | exact Hinv].
Qed.

(** The operator button that carries the class [active] is the pending
    operator, after any events: [setOperator] marks the button of the
    operator it stores, and [calculate] and [clear] unmark the buttons
    when they unset the operator.  (The buttons are those of the page:
    one per operator action, of class [operator-btn], none of them
    active at the start.) *)
Theorem active_button_is_pending_operator :
  forall es : list event,
    activeButton (run es new_calculator) = operator (run es new_calculator).
Proof.
  assert (H : forall es c,
             activeButton c = operator c ->
             activeButton (run es c) = operator (run es c)).
  { induction es as [|e es IH]; intros c Hc; [exact Hc|].
    unfold run. cbn [fold_left]. apply IH, step_active_button, Hc. }
  intro es. apply H. reflexivity.
Qed.

(** *** The characters of a formatted result *)

Section OutsideTheAlphabet.

Variable ch : ascii.
Hypothesis Hout : number_char ch = false.

Lemma number_char_differs :
  forall a, number_char a = true -> Ascii.eqb a ch = false.
Proof.
  intros a Ha. destruct (Ascii.eqb_spec a ch); [subst a; congruence | reflexivity].
Qed.

Lemma count_number_chars :
  forall s,
    forallb number_char (list_ascii_of_string s) = true -> count ch s = O.
Proof.
  induction s as [|a s IH]; simpl; [reflexivity|].
  intro H. apply andb_prop in H. destruct H as [Ha Hs].
  rewrite (number_char_differs a Ha), (IH Hs). reflexivity.
Qed.

Lemma outside_digits_of : forall n, count ch (digits_of n) = O.
Proof.
  intro n. apply count_number_chars.
  unfold digits_of, NilZero.string_of_uint.
  assert (H : forall d,
             forallb number_char
               (list_ascii_of_string (NilEmpty.string_of_uint d)) = true)
    by (induction d; simpl; auto).
  destruct (N.to_uint (Z.to_N n)); try apply H. reflexivity.
Qed.

Lemma outside_repeat0 : forall n, count ch (repeat0 n) = O.
Proof.
  intro n. apply count_number_chars. unfold repeat0.
  rewrite list_ascii_of_string_of_list_ascii.
  induction n; simpl; auto.
Qed.

Lemma outside_sign_string : forall s, count ch (sign_string s) = O.
Proof. intros []; apply count_number_chars; reflexivity. Qed.

Lemma outside_exponent_string : forall e, count ch (exponent_string e) = O.
Proof.
  intro e. unfold exponent_string.
  rewrite count_append, outside_digits_of.
  destruct (e <? 0); rewrite count_number_chars; reflexivity.
Qed.

Lemma outside_point : count ch "." = O.
Proof. apply count_number_chars. reflexivity. Qed.

Lemma outside_e : count ch "e" = O.
Proof. apply count_number_chars. reflexivity. Qed.

Ltac outside :=
  repeat (rewrite count_append
          || rewrite outside_repeat0
          || rewrite outside_digits_of
          || rewrite outside_exponent_string
          || rewrite outside_sign_string
          || rewrite outside_point
          || rewrite outside_e).

Lemma outside_layout :
  forall ds n k, count ch ds = O -> count ch (layout ds n k) = O.
Proof.
  intros ds n k Hds. unfold layout.
  change "0." with ("0" ++ ".").
  repeat match goal with
         | |- context [if ?b then _ else _] => destruct b
         end;
    outside;
    rewrite ?(count_take ch _ _ Hds), ?(count_drop ch _ _ Hds), ?Hds;
    rewrite ?(count_number_chars "0" eq_refl);
    reflexivity.
Qed.

Lemma outside_toString :
  forall x, isFinite x = true -> count ch (toString x) = O.
Proof.
  intros [s | s | | s m e] Hfin; try discriminate Hfin; unfold toString.
  - apply count_number_chars. reflexivity.
  - destruct (shortest _ _ _ _ _) as [[d n] k].
    rewrite count_append, outside_sign_string.
    apply outside_layout, outside_digits_of.
Qed.

Lemma outside_exp_digits :
  forall fd ds e, count ch ds = O -> count ch (exp_digits fd ds e) = O.
Proof.
  intros fd ds e Hds. unfold exp_digits.
  destruct (Nat.eqb fd 0); outside;
    rewrite ?(count_take ch _ _ Hds), ?(count_drop ch _ _ Hds), ?Hds;
    reflexivity.
Qed.

Lemma outside_toExponential :
  forall fd x, isFinite x = true -> count ch (toExponential fd x) = O.
Proof.
  intros fd [s | s | | s m e] Hfin; try discriminate Hfin;
    unfold toExponential.
  - apply outside_exp_digits, outside_repeat0.
  - destruct (exp_round fd (fraction_of m e)) as [n e10].
    rewrite count_append, outside_sign_string.
    apply outside_exp_digits, outside_digits_of.
Qed.

Lemma outside_fixed_digits :
  forall fd n, count ch (fixed_digits fd n) = O.
Proof.
  intros fd n. unfold fixed_digits.
  set (padded := repeat0 (S fd - String.length (digits_of n))
                 ++ digits_of n).
  assert (Hp : count ch padded = O) by (unfold padded; outside; reflexivity).
  destruct (Nat.eqb fd 0); [exact Hp|].
  outside. rewrite (count_take ch _ _ Hp), (count_drop ch _ _ Hp).
  reflexivity.
Qed.

Lemma outside_toFixed :
  forall fd x, isFinite x = true -> count ch (toFixed fd x) = O.
Proof.
  intros fd [s | s | | s m e] Hfin; try discriminate Hfin; unfold toFixed.
  - apply outside_fixed_digits.
  - destruct (le lit_1e21 _); [apply outside_toString; reflexivity|].
    rewrite count_append, outside_sign_string. apply outside_fixed_digits.
Qed.

Lemma outside_formatResult :
  forall x, isFinite x = true -> count ch (formatResult x) = O.
Proof.
  intros x Hfin. unfold formatResult. rewrite Hfin. cbn [negb].
  repeat match goal with
         | |- context [if ?b then _ else _] => destruct b
         end;
    auto using outside_toExponential, outside_toString.
  pose proof (count_strip_zeros_regex ch (toFixed 8 x)) as H.
  rewrite (outside_toFixed 8 x Hfin) in H. lia.
Qed.

End OutsideTheAlphabet.

(** [formatResult] returns ["Error"] for the values that are not finite
    and for no other: a finite value is printed with digits, the
    decimal point, [e], [+] and [-] only. *)
Theorem formatResult_error_iff_not_finite :
  forall x : number,
    (formatResult x = "Error" <-> isFinite x = false)
    /\ (isFinite x = true ->
        forall ch, number_char ch = false -> count ch (formatResult x) = O).
Proof.
  intro x. split; [split|].
  - intro Herr. destruct (isFinite x) eqn:Hfin; [|reflexivity].
    pose proof (outside_formatResult "E" eq_refl x Hfin) as H.
    rewrite Herr in H. discriminate H.
  - intro Hfin. unfold formatResult. rewrite Hfin. reflexivity.
  - intros Hfin ch Hch. apply outside_formatResult; assumption.
Qed.

Lemma formatResult_error_iff_not_finite_witness :
  formatResult (div (parseFloat "1") (parseFloat "3")) <> "Error"
  /\ count "E" (formatResult (parseFloat "1e300")) = O
  /\ formatResult (mul (parseFloat "1e300") (parseFloat "1e300")) = "Error".
Proof.
  destruct (formatResult_error_iff_not_finite
              (div (parseFloat "1") (parseFloat "3"))) as [[H1 _] _].
  destruct (formatResult_error_iff_not_finite (parseFloat "1e300"))
    as [_ H2].
  destruct (formatResult_error_iff_not_finite
              (mul (parseFloat "1e300") (parseFloat "1e300"))) as [[_ H3] _].
  split; [|split].
  - intro H. apply H1 in H. vm_compute in H. discriminate H.
  - apply H2; vm_compute; reflexivity.
  - apply H3. vm_compute. reflexivity.
Defined.

(** *** The keyboard *)

Lemma digit_key_range :
  forall ch,
    String.leb "0" (String ch "") && String.leb (String ch "") "9"
    = is_digit ch.
Proof.
  intros [[] [] [] [] [] [] [] []]; vm_compute; reflexivity.
Qed.

Lemma keydown_entry_key :
  forall ch c,
    entry_char ch = true -> keydown (String ch "") c = step (key ch) c.
Proof.
  intros ch c Hch. unfold keydown, key. rewrite digit_key_range.
  destruct (is_digit ch) eqn:Hd.
  - rewrite (digit_not_point ch Hd). reflexivity.
  - unfold entry_char in Hch. rewrite Hd in Hch. cbn [orb] in Hch.
    rewrite Hch. apply Ascii.eqb_eq in Hch; subst ch. reflexivity.
Qed.

(** Digits and the decimal point are entered by the keyboard as by the
    buttons: a sequence of such keys pressed leaves the state that the
    same sequence of number and decimal clicks leaves. *)
Theorem keyboard_types_entry :
  forall (s : string) (c : calculator),
    forallb entry_char (list_ascii_of_string s) = true ->
    press_keys s c = type_keys s c.
Proof.
  unfold press_keys, type_keys, run.
  induction s as [|ch s IH]; intros c Hs; [reflexivity|].
  cbn [list_ascii_of_string forallb] in Hs.
  apply andb_prop in Hs. destruct Hs as [Hch Hs].
  cbn [list_ascii_of_string map fold_left].
  rewrite (keydown_entry_key ch c Hch). apply IH, Hs.
Qed.

Lemma keyboard_types_entry_witness :
  press_keys "3.14" new_calculator = type_keys "3.14" new_calculator
  /\ currentInput (press_keys "3.14" new_calculator) = "3.14".
Proof.
  pose proof (keyboard_types_entry "3.14" new_calculator eq_refl) as H.
  split; [exact H|]. rewrite H. vm_compute. reflexivity.
Defined.

(** The keyboard reaches the entry, the four operators, [=], the
    percentage and [clear], and nothing else: no key takes a square
    root or touches the memory register, and a key that the listener
    does not know changes nothing. *)
Theorem keyboard_reach :
  forall (k : string) (c : calculator),
    (keydown k c = c
     \/ keydown k c = inputNumber k c
     \/ exists a,
          keydown k c = handleAction a c
          /\ (a = a_clear \/ a = a_decimal \/ a = a_equals
              \/ a = a_percentage \/ exists o, a = a_operator o))
    /\ memory (keydown k c) = memory c.
Proof.
  intros k c.
  assert (Hreach :
            keydown k c = c
            \/ keydown k c = inputNumber k c
            \/ exists a,
                 keydown k c = handleAction a c
                 /\ (a = a_clear \/ a = a_decimal \/ a = a_equals
                     \/ a = a_percentage \/ exists o, a = a_operator o)).
  { unfold keydown.
    destruct (String.leb "0" k && String.leb k "9"); [right; left; reflexivity|].
    repeat match goal with
           | |- context [if ?b then _ else _] => destruct b
           end;
      try (left; reflexivity); right; right.
    - exists a_decimal. split; [reflexivity | tauto].
    - exists (a_operator add). split; [reflexivity|].
      do 4 right. exists add; reflexivity.
    - exists (a_operator subtract). split; [reflexivity|].
      do 4 right. exists subtract; reflexivity.
    - exists (a_operator multiply). split; [reflexivity|].
      do 4 right. exists multiply; reflexivity.
    - exists (a_operator divide). split; [reflexivity|].
      do 4 right. exists divide; reflexivity.
    - exists a_equals. split; [reflexivity | tauto].
    - exists a_clear. split; [reflexivity | tauto].
    - exists a_percentage. split; [reflexivity | tauto].
    - exists a_clear. split; [reflexivity | tauto]. }
  split; [exact Hreach|].
  destruct Hreach as [-> | [-> | (a & -> & Ha)]].
  - reflexivity.
  - apply (memory_frame (Number k) c); discriminate.
  - apply (memory_frame (Action a) c);
      destruct Ha as [-> | [-> | [-> | [-> | [o ->]]]]]; discriminate.
Qed.

(** *** After a division by zero *)

(** The division that was refused stays pending, so the error is
    repaired by typing another divisor: after [p ÷ 0 =], a valid
    sequence [d] that does not parse to zero and [=] display the
    formatted quotient of [p] by [d], and the error class is unset.
    (The [clear] that the error scheduled is still in the queue.) *)
Theorem division_error_recovers :
  forall (c : calculator) (p d : string),
    operator c = Some divide ->
    previousInput c = Some p ->
    currentInput c = "0" ->
    waitingForNewInput c = false ->
    valid_entry d = true -> (count "." d <= 1)%nat -> len d <= 12 ->
    strict_eq (parseFloat (collapse d)) zero = false ->
    let c' := c |> calculate |> type_keys d |> calculate in
    displayError (calculate c) = true
    /\ currentInput c'
       = formatResult (div (parseFloat p) (parseFloat (collapse d)))
    /\ display c' = currentInput c'
    /\ displayError c' = false
    /\ operator c' = None
    /\ timers c' = (timers c ++ [(2000, CallClear)])%list.
Proof.
  intros c p d Hop Hprev Hcur Hw Hd Hdd Hld Hnz; cbv zeta.
  assert (Hzero : strict_eq (parseFloat (currentInput c)) zero = true)
    by (rewrite Hcur; vm_compute; reflexivity).
  rewrite (calculate_divide_by_zero c p Hop Hprev Hzero).
  set (c1 := showError "Cannot divide by zero" c).
  assert (Hstart : waitingForNewInput c1 = false /\ currentInput c1 = "0")
    by (split; [exact Hw | exact Hcur]).
  destruct (type_keys_entry d c1 (or_intror Hstart) Hd Hdd Hld) as [Hcur2 _].
  destruct (type_keys_frame d c1) as (Ho2 & Hp2 & _ & Ht2 & _).
  change (operator c1) with (operator c) in Ho2. rewrite Hop in Ho2.
  change (previousInput c1) with (previousInput c) in Hp2.
  rewrite Hprev in Hp2.
  set (c2 := type_keys d c1) in *.
  assert (Hdiv : divide = divide ->
                 strict_eq (parseFloat (currentInput c2)) zero = false)
    by (intros _; rewrite Hcur2; exact Hnz).
  destruct (calculate_result c2 divide p Ho2 Hp2 Hdiv)
    as (H1 & H2 & H3 & _ & _ & _ & _ & H8).
  rewrite Hcur2 in H1, H2.
  split; [reflexivity|].
  rewrite H1, H2, H3, H8. repeat split.
  unfold calculate. rewrite Ho2, Hp2.
  rewrite (compute_result divide _ _ Hdiv). simpl. exact Ht2.
Qed.

Lemma division_error_recovers_witness :
  let c := new_calculator
             |> type_keys "9" |> setOperator divide |> type_keys "0" in
  displayError (calculate c) = true
  /\ currentInput (c |> calculate |> type_keys "4" |> calculate) = "2.25".
Proof.
  cbv zeta.
  assert (Hdd : (count "." "4" <= 1)%nat) by (vm_compute; lia).
  assert (Hld : len "4" <= 12) by (vm_compute; discriminate).
  destruct (division_error_recovers
              (new_calculator
                 |> type_keys "9" |> setOperator divide |> type_keys "0")
              "9" "4" eq_refl eq_refl eq_refl eq_refl eq_refl Hdd Hld eq_refl)
    as (H1 & H2 & _).
  split; [exact H1|]. rewrite H2. vm_compute. reflexivity.
Defined.

(** *** More on the entry *)

(** A decimal point typed first keeps a zero in front of it: on a
    cleared entry, or with the flag up, the keys [.] and then [r] leave
    ["0."] followed by [r], for [r] without a decimal point and of at
    most 10 characters. *)
Theorem leading_point_entry :
  forall (c : calculator) (r : string),
    (waitingForNewInput c = true
     \/ (waitingForNewInput c = false /\ currentInput c = "0")) ->
    count "." r = O ->
    len r <= 10 ->
    currentInput (type_keys (String "." r) c) = "0." ++ r.
Proof.
  intros c r Hstart Hdots Hlen.
  rewrite type_keys_cons.
  assert (Hstep : currentInput (step (key ".") c) = "0."
                  /\ waitingForNewInput (step (key ".") c) = false).
  { unfold key, step, handleAction, inputDecimal; simpl.
    destruct Hstart as [Hw | [Hw Hcur]]; rewrite Hw; [|rewrite Hcur];
      simpl; rewrite ?Hw; split; reflexivity. }
  destruct Hstep as [Hcur' Hw'].
  rewrite type_keys_appends; rewrite ?Hcur';
    [reflexivity | exact Hw' | discriminate | discriminate | | ].
  - simpl. rewrite Hdots. lia.
  - intros _ _ _. rewrite !len_String. change (len "") with 0. lia.
Qed.

Lemma leading_point_entry_witness :
  currentInput (type_keys ".25" new_calculator) = "0.25"
  /\ currentInput
       (type_keys ".5" (new_calculator
                          |> type_keys "3" |> setOperator add)) = "0.5".
Proof.
  assert (H25 : len "25" <= 10) by (vm_compute; discriminate).
  assert (H5 : len "5" <= 10) by (vm_compute; discriminate).
  split.
  - exact (leading_point_entry new_calculator "25"
             (or_intror (conj eq_refl eq_refl)) eq_refl H25).
  - exact (leading_point_entry
             (new_calculator |> type_keys "3" |> setOperator add) "5"
             (or_introl eq_refl) eq_refl H5).
Defined.




